(** * GoogleSearchTool: the cache-keyed search call of llm_intents

    A shallow embedding of [custom_components/llm_intents/GoogleSearch.py]:
    the JSON-like values the tool handles, the Python operations it applies
    to them (with the exceptions they raise), the cache gateway it talks to,
    and [async_call] itself as a computation over an explicit state that
    records the cache store and every HTTP request sent. *)

From stdpp Require Import gmap strings list fin_maps pretty sorting.
From Stdlib Require Import ZArith Ascii.

Set Warnings "-register-all".

Open Scope string_scope.

(** ** Python values and exceptions *)

(** JSON-like values as Python holds them after [json.loads]: [None],
    booleans, integers, strings, lists and dicts.  A dict keeps its
    insertion order, so it is an association list; a string is the UTF-8
    encoding of the Python [str].  JSON floats are outside the model. *)
Inductive value : Type :=
| VNone
| VBool (b : bool)
| VInt (n : Z)
| VStr (s : string)
| VList (l : list value)
| VDict (d : list (string * value)).

(** An exception is its class name, what [str(e)] gives, and whether its
    class derives from [Exception].  [except Exception] catches those that
    do and lets the others through: [asyncio.CancelledError],
    [KeyboardInterrupt] and [SystemExit] derive from [BaseException]
    only. *)
Record exn : Type := MkExn {
  exn_class : string;
  exn_str : string;
  exn_is_exception : bool
}.

(** An exception of a class that derives from [Exception]. *)
Definition Exn (class str : string) : exn := MkExn class str true.

(** The cancellation of the task, delivered at one of its awaits. *)
Definition CancelledError : exn := MkExn "CancelledError" "" false.

Inductive result (A : Type) : Type :=
| Ok (a : A)
| Raise (e : exn).
Arguments Ok {A} a.
Arguments Raise {A} e.

Definition rbind {A B} (r : result A) (k : A → result B) : result B :=
  match r with
  | Ok a => k a
  | Raise e => Raise e
  end.

Declare Scope result_scope.
Delimit Scope result_scope with result.
Notation "'let?' x := r 'in' k" := (rbind r (λ x, k))
  (at level 10, x name, r at level 100, k at level 200) : result_scope.

(** [type(v).__name__], as it appears in the interpreter's messages. *)
Definition type_name (v : value) : string :=
  match v with
  | VNone => "NoneType"
  | VBool _ => "bool"
  | VInt _ => "int"
  | VStr _ => "str"
  | VList _ => "list"
  | VDict _ => "dict"
  end.

(** [bool(v)]: what [if v:] and [not v] test. *)
Definition truthy (v : value) : bool :=
  match v with
  | VNone => false
  | VBool b => b
  | VInt n => negb (n =? 0)%Z
  | VStr s => negb (String.eqb s "")
  | VList l => match l with [] => false | _ => true end
  | VDict d => match d with [] => false | _ => true end
  end.

(** *** Strings as sequences of code points *)

(** A UTF-8 continuation byte is [10xxxxxx]. *)
Definition is_continuation (c : ascii) : bool :=
  let n := nat_of_ascii c in (128 <=? n)%nat && (n <? 192)%nat.

(** The continuation bytes at the head of [s], and what follows them. *)
Fixpoint span_continuation (s : string) : string * string :=
  match s with
  | String c s' =>
      if is_continuation c
      then let '(h, t) := span_continuation s' in (String c h, t)
      else ("", s)
  | EmptyString => ("", "")
  end.

(** The code points of a string, each as a one-character string.  The fuel
    is the number of bytes, which bounds the number of code points. *)
Fixpoint chars_fuel (fuel : nat) (s : string) : list string :=
  match fuel, s with
  | S fuel', String c s' =>
      let '(h, t) := span_continuation s' in
      String c h :: chars_fuel fuel' t
  | _, _ => []
  end.

Definition chars (s : string) : list string := chars_fuel (String.length s) s.

(** *** Dict operations *)

Fixpoint dict_lookup (k : string) (d : list (string * value)) : option value :=
  match d with
  | [] => None
  | (k', v) :: d' => if String.eqb k k' then Some v else dict_lookup k d'
  end.

(** [d[k] = x]: an existing key keeps its position, a new one goes last. *)
Fixpoint dict_set (k : string) (x : value) (d : list (string * value))
  : list (string * value) :=
  match d with
  | [] => [(k, x)]
  | (k', v) :: d' =>
      if String.eqb k k' then (k', x) :: d' else (k', v) :: dict_set k x d'
  end.

Definition attribute_error (v : value) (attr : string) : exn :=
  Exn "AttributeError"
      ("'" +:+ type_name v +:+ "' object has no attribute '" +:+ attr +:+ "'").

(** [v.get(k, dflt)]: only a dict has the method. *)
Definition py_get (v : value) (k : string) (dflt : value) : result value :=
  match v with
  | VDict d => Ok (default dflt (dict_lookup k d))
  | _ => Raise (attribute_error v "get")
  end.

(** [v[0]]. *)
Definition py_item0 (v : value) : result value :=
  match v with
  | VList (x :: _) => Ok x
  | VList [] => Raise (Exn "IndexError" "list index out of range")
  | VStr s =>
      match chars s with
      | c :: _ => Ok (VStr c)
      | [] => Raise (Exn "IndexError" "string index out of range")
      end
  | VDict _ => Raise (Exn "KeyError" "0")
  | _ => Raise (Exn "TypeError"
                    ("'" +:+ type_name v +:+ "' object is not subscriptable"))
  end.

(** What [for x in v] runs through. *)
Definition py_iter (v : value) : result (list value) :=
  match v with
  | VList l => Ok l
  | VStr s => Ok (VStr <$> chars s)
  | VDict d => Ok ((λ kv, VStr kv.1) <$> d)
  | _ => Raise (Exn "TypeError"
                    ("'" +:+ type_name v +:+ "' object is not iterable"))
  end.

(** [v[k] = x] for a string key [k]. *)
Definition py_setitem (v : value) (k : string) (x : value) : result value :=
  match v with
  | VDict d => Ok (VDict (dict_set k x d))
  | VList _ =>
      Raise (Exn "TypeError" "list indices must be integers or slices, not str")
  | _ => Raise (Exn "TypeError"
                    ("'" +:+ type_name v
                         +:+ "' object does not support item assignment"))
  end.

(** ** The cache gateway *)

(** The cache module ([cache.py], class [SQLiteCache]) is not among the
    sources at hand; section 4.1 of the specification is what describes it,
    and the definitions of this part follow its words.  The value formatting
    and the hash, which the specification leaves open, are parameters. *)

(** Modelled from the spec: [cache.py] is missing; "stable key ordering" is
    the order of the parameter names. *)
Definition key_le (p q : string * value) : Prop := String.leb p.1 q.1 = true.

#[global] Instance key_le_dec p q : Decision (key_le p q).
Proof. unfold key_le. apply _. Defined.

Section CacheGateway.
Variable format_value : value → string.
Variable digest : string → string.

(** Modelled from the spec: [cache.py] is missing; key derivation
    "must canonicalize parameter order before hashing/serializing". *)
Definition canonical (params : list (string * value)) : list (string * value) :=
  merge_sort key_le params.

(** Modelled from the spec: [cache.py] is missing; the "canonical
    serialization of params", each value through the stable formatting. *)
Definition serialize (params : list (string * value)) : string :=
  String.concat "," ((λ kv, kv.1 +:+ "=" +:+ format_value kv.2) <$> params).

(** Modelled from the spec: [cache.py] is missing; "concatenate namespace
    with a canonical serialization of params and apply a stable hash or
    direct serialized string as the storage key". *)
Definition deriveKey (namespace : string) (params : list (string * value))
  : string :=
  digest (namespace +:+ ":" +:+ serialize (canonical params)).

(** Modelled from the spec: [cache.py] is missing; [get] answers the value
    or absent, and "a storage-layer error is caught internally and treated
    as absent" ([readable = false]). *)
Definition gateway_get (readable : bool) (store : gmap string value)
    (namespace : string) (params : list (string * value)) : option value :=
  if readable then store !! deriveKey namespace params else None.

(** Modelled from the spec: [cache.py] is missing; [set] "overwrites any
    existing entry for the same key", and a failure to persist
    ([writable = false]) is silent. *)
Definition gateway_set (writable : bool) (store : gmap string value)
    (namespace : string) (params : list (string * value)) (v : value)
  : gmap string value :=
  if writable then <[deriveKey namespace params := v]> store else store.
End CacheGateway.

(** ** The host and the outside world *)

(** What [session.post] hands back: the status line is there at once, the
    body is awaited ([resp.text()], [resp.json()]) and either await may
    raise. *)
Record response : Type := Response {
  resp_status : Z;
  resp_text : result string;
  resp_json : result value
}.

(** What raises, if anything, is an [Exception]. *)
Definition raises_exceptions_only {A} (r : result A) : Prop :=
  match r with
  | Ok _ => True
  | Raise ex => exn_is_exception ex = true
  end.

(** One invocation's surroundings: the HTTP endpoint as a function of the
    request, and whether the storage layer reads and writes. *)
Record env : Type := Env {
  env_post : string → value → result response;
  env_readable : bool;
  env_writable : bool
}.

(** No await of the invocation is cut short by a cancellation or another
    exception outside [Exception]: sending the request and awaiting the body
    of the response succeed or raise an [Exception]. *)
Definition uninterrupted (e : env) : Prop :=
  ∀ url body,
    match env_post e url body with
    | Ok resp =>
        raises_exceptions_only (resp_text resp) ∧
        raises_exceptions_only (resp_json resp)
    | Raise ex => exn_is_exception ex = true
    end.

(** The effects an invocation has on its collaborators, in the order they
    happen.  The logger's output is diagnostic and is not among them. *)
Inductive event : Type :=
| CacheGet (namespace : string) (params : list (string * value))
| CacheSet (namespace : string) (params : list (string * value)) (v : value)
| HttpPost (url : string) (body : value).

(** What an invocation can change: the cache store, and the trace of the
    effects so far (oldest first). *)
Record world : Type := World {
  w_store : gmap string value;
  w_trace : list event
}.

Definition is_post (ev : event) : bool :=
  match ev with HttpPost _ _ => true | _ => false end.

(** The HTTP requests sent so far. *)
Definition requests (w : world) : list event := filter is_post (w_trace w).

Record config_entry : Type := ConfigEntry {
  entry_options : gmap string string
}.

(** [hass.data] maps a domain to its data dict, whose ["config"] item is a
    settings dict; [hass.config_entries.async_entries] lists the entries of
    a domain.  The settings this tool reads are strings. *)
Record hass : Type := Hass {
  hass_data : gmap string (gmap string (gmap string string));
  hass_entries : string → list config_entry
}.

Record tool_input : Type := ToolInput {
  tool_args : gmap string value
}.

(** Computations that read and change the world and may raise. *)
Definition M (A : Type) : Type := world → result A * world.

Definition ret {A} (a : A) : M A := λ w, (Ok a, w).

Definition bind {A B} (m : M A) (k : A → M B) : M B :=
  λ w, match m w with
       | (Ok a, w') => k a w'
       | (Raise e, w') => (Raise e, w')
       end.

(** A pure step that may raise. *)
Definition lift {A} (r : result A) : M A := λ w, (r, w).

(** [try: body except Exception as e: handler e]: an exception that does
    not derive from [Exception] goes on to the caller. *)
Definition try_except {A} (body : M A) (handler : exn → M A) : M A :=
  λ w, match body w with
       | (Ok a, w') => (Ok a, w')
       | (Raise e, w') =>
           if exn_is_exception e then handler e w' else (Raise e, w')
       end.

Declare Scope tool_scope.
Delimit Scope tool_scope with tool.
Notation "'do' x <- m ; k" := (bind m (λ x, k))
  (at level 10, x name, m at level 100, k at level 200) : tool_scope.

(** ** The tool *)

Definition dq : string := String (ascii_of_nat 34) EmptyString.

Definition response_instruction : string :=
  "
    Используй результаты поиска и текущую дату из системного промпта. 
    Если пользователь спросил " +:+ dq +:+
  "через сколько дней/месяцев" +:+ dq +:+
  ", ты ОБЯЗАНА сама вычислить разницу, 
    основываясь на сегодняшнем числе.

    ТВОЯ ЗАДАЧА:
    Отвечать живым, естественным языком (лирика и комментарии разрешены), НО с хирургической точностью к фактам.

    СТРОГИЕ ПРАВИЛА ОБРАБОТКИ ФАКТОВ:
    1. ИЗОЛЯЦИЯ ЛОКАЦИЙ (Самое важное): Если в тексте упомянуто несколько мест (например, Индия, Казахстан, Камчатка), ты обязана перечислить их ОТДЕЛЬНО.
       - ЗАПРЕЩЕНО смешивать данные: Нельзя писать " +:+ dq +:+
  "В Казахстане и на Камчатке были толчки до 5 баллов" +:+ dq +:+
  ", если 5 баллов было только на Камчатке.
       - Правильно: " +:+ dq +:+
  "В Казахстане — 4.2. А вот на Камчатке — до 5.0" +:+ dq +:+
  ".
    
    2. ЗАПРЕТ НА " +:+ dq +:+
  "КРАЖУ" +:+ dq +:+
  " ЦИФР: Никогда не приписывай магнитуду или дату одного события другому. Проверяй каждое число: к какому городу оно относится в исходнике?
    
    3. ГЕОГРАФИЯ: Не меняй названия мест. Если написано " +:+ dq +:+
  "Южная Атлантика" +:+ dq +:+
  ", не пиши " +:+ dq +:+
  "Америка" +:+ dq +:+
  ".

    Итог: Говори красиво, но цифры и города раскладывай строго по полочкам, не смешивая их.
    ".

(** [__name__] of the module, the namespace of its cache entries. *)
Definition module_name : string := "custom_components.llm_intents.GoogleSearch".

Definition default_model : string := "gemini-2.0-flash-exp".

Definition system_instruction : string :=
  "Ты — поисковый ассистент. Используй поиск для получения актуальной информации. Верни краткую выжимку по результатам поиска. Всегда отвечай на русском языке.".

(** [wrap_response]: [response["instruction"] = self.response_instruction]. *)
Definition wrap_response (response : value) : result value :=
  py_setitem response "instruction" (VStr response_instruction).

(** [{"error": msg}]. *)
Definition error_object (msg : string) : value := VDict [("error", VStr msg)].

(** [{"results": msg}]. *)
Definition results_object (msg : string) : value := VDict [("results", VStr msg)].

(** The request body. *)
Definition payload (query : value) : value :=
  VDict [
    ("contents", VList [VDict [("parts", VList [VDict [("text", query)]])]]);
    ("tools", VList [VDict [("google_search", VDict [])]]);
    ("systemInstruction",
      VDict [("parts", VList [VDict [("text", VStr system_instruction)]])])
  ].

Definition request_url (model api_key : string) : string :=
  "https://generativelanguage.googleapis.com/v1beta/models/" +:+ model
    +:+ ":generateContent?key=" +:+ api_key.

(** [candidate.get("content", {}).get("parts", [{}])[0].get("text", "")]. *)
Definition extract_content (candidate : value) : result value :=
  (let? content := py_get candidate "content" (VDict []) in
   let? parts := py_get content "parts" (VList [VDict []]) in
   let? part := py_item0 parts in
   py_get part "text" (VStr ""))%result.

(** [{"title": web_source.get("title"), "url": web_source.get("uri")}]. *)
Definition citation (web_source : value) : result value :=
  (let? title := py_get web_source "title" VNone in
   let? url := py_get web_source "uri" VNone in
   Ok (VDict [("title", title); ("url", url)]))%result.

(** The loop over the attributions; [sources] is the list built so far. *)
Fixpoint collect_sources (attributions : list value) (sources : list value)
  : result (list value) :=
  match attributions with
  | [] => Ok sources
  | attr :: rest =>
      (let? web_source := py_get attr "web" (VDict []) in
       if truthy web_source
       then let? c := citation web_source in
            collect_sources rest (sources ++ [c])
       else collect_sources rest sources)%result
  end.

(** [not api_key] for what [config_data.get] answered. *)
Definition key_missing (api_key : option string) : bool :=
  match api_key with
  | None => true
  | Some s => String.eqb s ""
  end.

Section Tool.
(** The constants of [const.py], which is not among the sources. *)
Variables DOMAIN CONF_GOOGLE_SEARCH_API_KEY CONF_GOOGLE_SEARCH_MODEL : string.
(** The two degrees of freedom of the cache gateway. *)
Variable format_value : value → string.
Variable digest : string → string.

(** Lines 66 to 68: the domain's settings, overridden by the options of
    the first config entry.  [next] on an exhausted iterator raises
    [StopIteration], which a coroutine turns into a [RuntimeError]. *)
Definition read_config (h : hass) : result (gmap string string) :=
  match hass_data h !! DOMAIN with
  | None => Raise (Exn "KeyError" ("'" +:+ DOMAIN +:+ "'"))
  | Some domain_data =>
      let config_data := default ∅ (domain_data !! "config") in
      match hass_entries h DOMAIN with
      | [] => Raise (Exn "RuntimeError" "coroutine raised StopIteration")
      | entry :: _ => Ok (entry_options entry ∪ config_data)
      end
  end.

(** Line 70: [tool_input.tool_args["query"]]. *)
Definition read_query (ti : tool_input) : result value :=
  match tool_args ti !! "query" with
  | Some q => Ok q
  | None => Raise (Exn "KeyError" "'query'")
  end.

(** [cache.get(__name__, cache_params)]: absent is [None]. *)
Definition cache_get (e : env) (params : list (string * value)) : M value :=
  λ w, (Ok (default VNone
              (gateway_get format_value digest (env_readable e) (w_store w)
                 module_name params)),
        World (w_store w) (w_trace w ++ [CacheGet module_name params])).

(** [cache.set(__name__, cache_params, response)]. *)
Definition cache_set (e : env) (params : list (string * value)) (v : value)
  : M unit :=
  λ w, (Ok tt,
        World (gateway_set format_value digest (env_writable e) (w_store w)
                 module_name params v)
              (w_trace w ++ [CacheSet module_name params v])).

(** [session.post(url, json=payload, timeout=15)]: the request goes out,
    then the endpoint answers or the call raises. *)
Definition session_post (e : env) (url : string) (body : value) : M response :=
  λ w, (env_post e url body,
        World (w_store w) (w_trace w ++ [HttpPost url body])).

(** Lines 105 to 147: what is done with the response. *)
Definition handle_response (e : env) (cache_params : list (string * value))
    (resp : response) : M value :=
  (if negb (resp_status resp =? 200)%Z then
     do text <- lift (resp_text resp);
     ret (error_object ("Search error: status " +:+ pretty (resp_status resp)))
   else
     do data <- lift (resp_json resp);
     do candidates <- lift (py_get data "candidates" (VList []));
     if negb (truthy candidates) then
       ret (results_object "Информация не найдена.")
     else
       do candidate <- lift (py_item0 candidates);
       do content <- lift (extract_content candidate);
       do metadata <- lift (py_get candidate "groundingMetadata" (VDict []));
       do attributions <-
         lift (py_get metadata "groundingAttributions" (VList []));
       do attrs <- lift (py_iter attributions);
       do sources <- lift (collect_sources attrs []);
       if negb (truthy content) && negb (truthy (VList sources)) then
         ret (results_object "No information found.")
       else
         let response :=
           VDict [("answer_summary", content);
                  ("sources", VList (take 3 sources))] in
         do _ <- cache_set e cache_params response;
         lift (wrap_response response))%tool.

(** Line 98: [{"model": model, "query": query}]. *)
Definition cache_params (model : string) (query : value)
  : list (string * value) :=
  [("model", VStr model); ("query", query)].

(** What [cache.get] answers for these parameters in world [w]. *)
Definition cached_entry (e : env) (w : world) (model : string) (query : value)
  : value :=
  default VNone
    (gateway_get format_value digest (env_readable e) (w_store w)
       module_name (cache_params model query)).

(** Lines 95 to 151: the guarded part.  [SQLiteCache()] takes the store
    handle; the gateway, as the specification has it, does not raise. *)
Definition guarded_call (e : env) (model api_key : string) (query : value)
  : M value :=
  try_except
    (let cache_params := cache_params model query in
     do cached_response <- cache_get e cache_params;
     if truthy cached_response then lift (wrap_response cached_response)
     else
       do resp <- session_post e (request_url model api_key) (payload query);
       handle_response e cache_params resp)%tool
    (λ ex, ret (error_object
                  ("An error occurred during search: " +:+ exn_str ex))).

Definition async_call (e : env) (h : hass) (ti : tool_input) : M value :=
  (do config_data <- lift (read_config h);
   do query <- lift (read_query ti);
   let api_key := config_data !! CONF_GOOGLE_SEARCH_API_KEY in
   let model :=
     default default_model (config_data !! CONF_GOOGLE_SEARCH_MODEL) in
   if key_missing api_key then
     ret (error_object "Google Search API key not configured")
   else
     guarded_call e model (default "" api_key) query)%tool.

(** The host is set up for the call: the configuration and the query can
    be read, and they give this key (not empty), model and query. *)
Definition ready (h : hass) (ti : tool_input) (model api_key : string)
    (query : value) : Prop :=
  ∃ config_data,
    read_config h = Ok config_data ∧
    read_query ti = Ok query ∧
    config_data !! CONF_GOOGLE_SEARCH_API_KEY = Some api_key ∧
    api_key ≠ "" ∧
    model = default default_model (config_data !! CONF_GOOGLE_SEARCH_MODEL).
End Tool.

(** ** Reading the returned object *)

(** [v.get(k)] on a returned object, [None] when [k] is not one of its keys. *)
Definition field (k : string) (v : value) : option value :=
  match v with
  | VDict d => dict_lookup k d
  | _ => None
  end.

(** The object the success path builds before it is cached and wrapped. *)
Definition summary_object (content : value) (sources : list value) : value :=
  VDict [("answer_summary", content); ("sources", VList sources)].

(** The three shapes of a ToolResult; the summary carries the instruction. *)
Inductive tool_result : value → Prop :=
| tool_result_error msg : tool_result (error_object msg)
| tool_result_results msg : tool_result (results_object msg)
| tool_result_summary content sources :
    tool_result
      (VDict [("answer_summary", content); ("sources", VList sources);
              ("instruction", VStr response_instruction)]).

(** Every entry of the store is an object as the success path caches it. *)
Definition store_ok (store : gmap string value) : Prop :=
  ∀ k v, store !! k = Some v → ∃ content sources, v = summary_object content sources.

(** ** Citations, as the specification words them *)

(** Section 4.2, step 5: an attribution that carries a web sub-object gives
    a citation with whatever subset of title and url is present. *)
Definition carries_web_object (attr : value) : bool :=
  match field "web" attr with
  | Some (VDict _) => true
  | _ => false
  end.

(** The citation of an attribution: a missing title or uri is [None]. *)
Definition citation_of (attr : value) : value :=
  let web := default (VDict []) (field "web" attr) in
  VDict [("title", default VNone (field "title" web));
         ("url", default VNone (field "uri" web))].

Definition citations_spec (attributions : list value) : list value :=
  take 3 (citation_of <$> filter (λ a, carries_web_object a) attributions).

(** What the code tests instead: the web sub-object is there and not empty. *)
Definition web_nonempty (attr : value) : bool :=
  match field "web" attr with
  | Some (VDict (_ :: _)) => true
  | _ => false
  end.

(** An attribution the loop gets through: an object whose ["web"] item, when
    there is one, is an object. *)
Definition attribution_ok (attr : value) : Prop :=
  ∃ d, attr = VDict d ∧
       (dict_lookup "web" d = None ∨ ∃ web, dict_lookup "web" d = Some (VDict web)).

(** The places of a response body the parser visits, each reached by the
    parser's own steps: the first candidate, its text and its attributions. *)
Definition response_parts (data candidate content : value)
    (attributions : list value) : Prop :=
  ∃ candidates metadata attrs,
    py_get data "candidates" (VList []) = Ok candidates ∧
    truthy candidates = true ∧
    py_item0 candidates = Ok candidate ∧
    extract_content candidate = Ok content ∧
    py_get candidate "groundingMetadata" (VDict []) = Ok metadata ∧
    py_get metadata "groundingAttributions" (VList []) = Ok attrs ∧
    py_iter attrs = Ok attributions.

(** ** Several invocations in a row *)

(** The same call issued once per environment of [envs], each starting in
    the world the previous one left. *)
Fixpoint run_calls (call : env → M value) (envs : list env) (w : world)
  : list (result value) * world :=
  match envs with
  | [] => ([], w)
  | e :: envs' =>
      let '(r, w') := call e w in
      let '(rs, w'') := run_calls call envs' w' in
      (r :: rs, w'')
  end.

(** ** A concrete installation *)

Module Demo.
Definition domain : string := "llm_intents".
Definition conf_api_key : string := "google_search_api_key".
Definition conf_model : string := "google_search_model".

(** Strings as they are, anything else by its type name. *)
Definition format_value (v : value) : string :=
  match v with
  | VStr s => s
  | _ => type_name v
  end.

Definition call := async_call domain conf_api_key conf_model format_value id.

Definition installation (api_key : string) : hass :=
  Hass {[ domain := {[ "config" := {[ conf_api_key := api_key ]} ]} ]}
       (λ _, [ConfigEntry ∅]).

(** No data for the domain was ever set up. *)
Definition bare_host : hass := Hass ∅ (λ _, [ConfigEntry ∅]).

Definition input : tool_input := ToolInput {[ "query" := VStr "weather" ]}.

Definition params : list (string * value) :=
  cache_params default_model (VStr "weather").

(** An endpoint that answers every request with [r]. *)
Definition answering (r : result response) : env := Env (λ _ _, r) true true.

Definition json_response (status : Z) (data : value) : result response :=
  Ok (Response status (Ok "body") (Ok data)).

Definition fresh : world := World ∅ [].

Definition web (title uri : string) : value :=
  VDict [("web", VDict [("title", VStr title); ("uri", VStr uri)])].

(** A body with one candidate, its text and its attributions. *)
Definition body (parts : value) (attributions : list value) : value :=
  VDict [("candidates",
          VList [VDict [("content", VDict [("parts", parts)]);
                        ("groundingMetadata",
                         VDict [("groundingAttributions",
                                 VList attributions)])]])].

Definition text_parts (s : string) : value := VList [VDict [("text", VStr s)]].

Definition cached : value :=
  summary_object (VStr "sunny") [VDict [("title", VStr "t"); ("url", VStr "u")]].

Definition warm : world :=
  World {[ deriveKey format_value id module_name params := cached ]} [].
End Demo.

(** ** Worlds along a cache miss *)

(** The world after the cache lookup. *)
Definition looked_up (w : world) (model : string) (query : value) : world :=
  World (w_store w)
        (w_trace w ++ [CacheGet module_name (cache_params model query)]).

(** The world after the cache lookup and the request. *)
Definition requested (w : world) (model api_key : string) (query : value)
  : world :=
  World (w_store w)
        (w_trace w ++ [CacheGet module_name (cache_params model query)]
                   ++ [HttpPost (request_url model api_key) (payload query)]).

(** The object returned on the success path of a miss. *)
Definition wrapped_summary (content : value) (sources : list value) : value :=
  VDict [("answer_summary", content); ("sources", VList sources);
         ("instruction", VStr response_instruction)].

(** The return statements of [async_call], by what they hand back: the two
    error returns, the two no-results returns, the wrapped cache entry and
    the wrapped summary. *)
Inductive return_path : Type :=
| ErrorReturn (msg : string)
| ResultsReturn (msg : string)
| HitReturn (cached_response : list (string * value))
| SummaryReturn (content : value) (sources : list value).

Definition returned_value (p : return_path) : value :=
  match p with
  | ErrorReturn msg => error_object msg
  | ResultsReturn msg => results_object msg
  | HitReturn d => VDict (dict_set "instruction" (VStr response_instruction) d)
  | SummaryReturn content sources => wrapped_summary content sources
  end.

(** ** Where an await can raise *)

(** Awaiting the body of [resp] raises [ex]: the text of a response that is
    not a 200 (line 107), the JSON of one that is (line 111). *)
Definition body_raises (resp : response) (ex : exn) : Prop :=
  (resp_status resp ≠ 200%Z ∧ resp_text resp = Raise ex) ∨
  (resp_status resp = 200%Z ∧ resp_json resp = Raise ex).

(** One of the awaits of a call that sends [body] to [url] raises [ex]. *)
Definition await_raises (e : env) (url : string) (body : value) (ex : exn)
  : Prop :=
  env_post e url body = Raise ex ∨
  ∃ resp, env_post e url body = Ok resp ∧ body_raises resp ex.

(** * Properties *)

(** ** The steps of [async_call] *)

Section Steps.
Variables DOMAIN CONF_GOOGLE_SEARCH_API_KEY CONF_GOOGLE_SEARCH_MODEL : string.
Variable format_value : value → string.
Variable digest : string → string.

Abbreviation call :=
  (async_call DOMAIN CONF_GOOGLE_SEARCH_API_KEY CONF_GOOGLE_SEARCH_MODEL
     format_value digest).
Abbreviation config_of := (read_config DOMAIN).
Abbreviation is_ready :=
  (ready DOMAIN CONF_GOOGLE_SEARCH_API_KEY CONF_GOOGLE_SEARCH_MODEL).
Abbreviation entry := (cached_entry format_value digest).
Abbreviation guarded := (guarded_call format_value digest).
Abbreviation handle := (handle_response format_value digest).

Lemma key_missing_false (o : option string) :
  key_missing o = false → ∃ k, o = Some k ∧ k ≠ "".
Proof.
  destruct o as [k|]; simpl; [|discriminate].
  intros Hk. exists k. split; [reflexivity|].
  intros ->. discriminate.
Qed.

Lemma key_missing_true (o : option string) :
  key_missing o = true ↔ o = None ∨ o = Some "".
Proof.
  destruct o as [k|]; simpl.
  - rewrite String.eqb_eq. split; [intros ->; by right|].
    intros [?|[=]]; congruence.
  - split; [by left|done].
Qed.

(** With a key configured, the call is its guarded part. *)
Lemma call_ready e h ti w model k q :
  is_ready h ti model k q →
  call e h ti w = guarded e model k q w.
Proof.
  intros (cfg & Hcfg & Hq & Hk & Hne & ->). unfold async_call, bind, lift.
  rewrite Hcfg, Hq, Hk. simpl.
  destruct (String.eqb_spec k ""); [contradiction|reflexivity].
Qed.

(** What the interpreter raises on a value is an [Exception]. *)
Lemma py_get_raises v k dflt ex :
  py_get v k dflt = Raise ex → exn_is_exception ex = true.
Proof. destruct v; simpl; by intros [= <-]. Qed.

Lemma py_item0_raises v ex : py_item0 v = Raise ex → exn_is_exception ex = true.
Proof.
  destruct v as [| | |s|[|x l]|d]; simpl; try by intros [= <-].
  destruct (chars s); by intros [= <-].
Qed.

Lemma py_iter_raises v ex : py_iter v = Raise ex → exn_is_exception ex = true.
Proof. destruct v; simpl; by intros [= <-]. Qed.

Lemma py_setitem_raises v k x ex :
  py_setitem v k x = Raise ex → exn_is_exception ex = true.
Proof. destruct v; simpl; by intros [= <-]. Qed.

Lemma rbind_raises {A B} (r : result A) (f : A → result B) ex :
  rbind r f = Raise ex →
  r = Raise ex ∨ ∃ a, r = Ok a ∧ f a = Raise ex.
Proof. destruct r as [a|ex']; simpl; [eauto|]. intros [= <-]. by left. Qed.

Lemma extract_content_raises candidate ex :
  extract_content candidate = Raise ex → exn_is_exception ex = true.
Proof.
  unfold extract_content.
  intros [H|(content & _ & [H|(parts & _ & [H|(part & _ & H)]%rbind_raises)]
                             %rbind_raises)]%rbind_raises.
  - by apply py_get_raises in H.
  - by apply py_get_raises in H.
  - by apply py_item0_raises in H.
  - by apply py_get_raises in H.
Qed.

Lemma citation_raises web_source ex :
  citation web_source = Raise ex → exn_is_exception ex = true.
Proof.
  unfold citation.
  intros [H|(title & _ & [H|(url & _ & [=])]%rbind_raises)]%rbind_raises;
    by apply py_get_raises in H.
Qed.

Lemma collect_sources_raises attrs ex : ∀ sources,
  collect_sources attrs sources = Raise ex → exn_is_exception ex = true.
Proof.
  induction attrs as [|attr attrs IH]; intros sources; simpl; [discriminate|].
  intros [H|(web_source & _ & H)]%rbind_raises.
  - by apply py_get_raises in H.
  - destruct (truthy web_source); [|by apply IH in H].
    apply rbind_raises in H as [H|(c & _ & H)].
    + by apply citation_raises in H.
    + by apply IH in H.
Qed.

(** A hit: the entry is wrapped and nothing else happens; when wrapping
    raises, the handler reports it. *)
Lemma guarded_hit e model k q w :
  truthy (entry e w model q) = true →
  guarded e model k q w =
    match wrap_response (entry e w model q) with
    | Ok v => (Ok v, looked_up w model q)
    | Raise ex =>
        (Ok (error_object ("An error occurred during search: " +:+ exn_str ex)),
         looked_up w model q)
    end.
Proof.
  intros Hhit. unfold guarded_call, try_except, bind, cache_get, lift, ret.
  fold (entry e w model q). rewrite Hhit.
  unfold looked_up.
  destruct (wrap_response _) as [v|ex] eqn:Hwrap; [done|].
  apply py_setitem_raises in Hwrap. by rewrite Hwrap.
Qed.

(** A miss whose request fails with an [Exception]: the failure is
    reported. *)
Lemma guarded_miss_raise e model k q w ex :
  truthy (entry e w model q) = false →
  env_post e (request_url model k) (payload q) = Raise ex →
  exn_is_exception ex = true →
  guarded e model k q w =
    (Ok (error_object ("An error occurred during search: " +:+ exn_str ex)),
     requested w model k q).
Proof.
  intros Hmiss Hpost Hex.
  unfold guarded_call, try_except, bind, cache_get, session_post, lift, ret.
  fold (entry e w model q). rewrite Hmiss. simpl. rewrite Hpost, Hex.
  unfold requested. by rewrite <- app_assoc.
Qed.

(** A miss whose request is cut short by something that is not an
    [Exception]: it goes through the handler to the caller. *)
Lemma guarded_miss_interrupted e model k q w ex :
  truthy (entry e w model q) = false →
  env_post e (request_url model k) (payload q) = Raise ex →
  exn_is_exception ex = false →
  guarded e model k q w = (Raise ex, requested w model k q).
Proof.
  intros Hmiss Hpost Hex.
  unfold guarded_call, try_except, bind, cache_get, session_post, lift, ret.
  fold (entry e w model q). rewrite Hmiss. simpl. rewrite Hpost, Hex.
  unfold requested. by rewrite <- app_assoc.
Qed.

(** A miss whose request is answered: the response is handled under the
    guard. *)
Lemma guarded_miss_response e model k q w resp :
  truthy (entry e w model q) = false →
  env_post e (request_url model k) (payload q) = Ok resp →
  guarded e model k q w =
    try_except (handle e (cache_params model q) resp)
      (λ ex, ret (error_object
                    ("An error occurred during search: " +:+ exn_str ex)))
      (requested w model k q).
Proof.
  intros Hmiss Hpost.
  unfold guarded_call, try_except, bind, cache_get, session_post, lift, ret.
  fold (entry e w model q). rewrite Hmiss. simpl. rewrite Hpost.
  unfold requested. by rewrite <- app_assoc.
Qed.

(** A status other than 200 whose body can be read. *)
Lemma handle_other_status e cp resp body w :
  resp_status resp ≠ 200%Z →
  resp_text resp = Ok body →
  handle e cp resp w =
    (Ok (error_object ("Search error: status " +:+ pretty (resp_status resp))),
     w).
Proof.
  intros Hst Htext. unfold handle_response, bind, lift, ret.
  destruct (Z.eqb_spec (resp_status resp) 200); [contradiction|].
  simpl. by rewrite Htext.
Qed.

(** A status other than 200 whose body cannot be read: awaiting the text
    raises, and the exception is the handler's to report. *)
Lemma handle_other_status_unreadable e cp resp ex w :
  resp_status resp ≠ 200%Z →
  resp_text resp = Raise ex →
  handle e cp resp w = (Raise ex, w).
Proof.
  intros Hst Htext. unfold handle_response, bind, lift, ret.
  destruct (Z.eqb_spec (resp_status resp) 200); [contradiction|].
  simpl. by rewrite Htext.
Qed.

(** A status of 200 whose body is an object without candidates. *)
Lemma handle_no_candidates e cp resp d w :
  resp_status resp = 200%Z →
  resp_json resp = Ok (VDict d) →
  dict_lookup "candidates" d = None ∨
    dict_lookup "candidates" d = Some (VList []) →
  handle e cp resp w = (Ok (results_object "Информация не найдена."), w).
Proof.
  intros Hst Hjson Hcand. unfold handle_response, bind, lift, ret.
  rewrite Hst, Hjson. simpl.
  by destruct Hcand as [-> | ->].
Qed.

(** ** Configuration validation *)

(** C4: when the configured API key is absent or empty, the call returns
    the credential error at once and leaves the world as it found it: the
    trace gains no cache lookup and no HTTP request, the store is
    unchanged. *)
Theorem missing_key_short_circuit e h ti w cfg q :
  config_of h = Ok cfg →
  read_query ti = Ok q →
  cfg !! CONF_GOOGLE_SEARCH_API_KEY = None ∨
    cfg !! CONF_GOOGLE_SEARCH_API_KEY = Some "" →
  call e h ti w =
    (Ok (error_object "Google Search API key not configured"), w).
Proof.
  intros Hcfg Hq Hkey. apply key_missing_true in Hkey.
  unfold async_call, bind, lift, ret. by rewrite Hcfg, Hq, Hkey.
Qed.

(** ** Response validation *)

(** C5: a response with a status outside the success class, answered to a
    call that missed the cache, makes the call return exactly the object
    whose error is "Search error: status" followed by the code.  The
    returned object is built from the status alone: the body that was
    read, and whatever the body would parse to, have no part in it. *)
Theorem upstream_error_status e h ti w model k q resp body :
  is_ready h ti model k q →
  truthy (entry e w model q) = false →
  env_post e (request_url model k) (payload q) = Ok resp →
  ¬ (200 ≤ resp_status resp < 300)%Z →
  resp_text resp = Ok body →
  call e h ti w =
    (Ok (error_object ("Search error: status " +:+ pretty (resp_status resp))),
     requested w model k q).
Proof.
  intros Hready Hmiss Hpost Hst Htext.
  rewrite (call_ready _ _ _ _ _ _ _ Hready).
  rewrite (guarded_miss_response _ _ _ _ _ _ Hmiss Hpost).
  unfold try_except.
  rewrite (handle_other_status _ _ _ body); [reflexivity|lia|done].
Qed.

(** C10: only the status 200 leads to parsing.  Any other code, the other
    success codes such as 201 and 204 among them, gives the status error;
    the JSON of the response is never asked for (whatever awaiting it
    would give, a value or an exception, the return is the same) and the
    store is left alone. *)
Theorem only_200_is_parsed e h ti w model k q status body parsed :
  is_ready h ti model k q →
  truthy (entry e w model q) = false →
  env_post e (request_url model k) (payload q) =
    Ok (Response status (Ok body) parsed) →
  status ≠ 200%Z →
  call e h ti w =
    (Ok (error_object ("Search error: status " +:+ pretty status)),
     requested w model k q).
Proof.
  intros Hready Hmiss Hpost Hst.
  rewrite (call_ready _ _ _ _ _ _ _ Hready).
  rewrite (guarded_miss_response _ _ _ _ _ _ Hmiss Hpost).
  unfold try_except.
  by rewrite (handle_other_status _ _ _ body).
Qed.

(** ** Tolerant parsing *)

(** C6: a response with status 200 whose body is an object with no
    candidates item, or with an empty candidates list, makes the call
    return the no-information object, not an error and not a summary, and
    nothing is cached. *)
Theorem no_candidates_no_information e h ti w model k q resp d :
  is_ready h ti model k q →
  truthy (entry e w model q) = false →
  env_post e (request_url model k) (payload q) = Ok resp →
  resp_status resp = 200%Z →
  resp_json resp = Ok (VDict d) →
  dict_lookup "candidates" d = None ∨
    dict_lookup "candidates" d = Some (VList []) →
  call e h ti w =
    (Ok (results_object "Информация не найдена."), requested w model k q).
Proof.
  intros Hready Hmiss Hpost Hst Hjson Hcand.
  rewrite (call_ready _ _ _ _ _ _ _ Hready).
  rewrite (guarded_miss_response _ _ _ _ _ _ Hmiss Hpost).
  unfold try_except.
  by rewrite (handle_no_candidates _ _ _ d).
Qed.

(** ** Every way out of the guarded part *)

Ltac step :=
  match goal with
  | |- context [match ?r with Ok _ => _ | Raise _ => _ end] =>
      destruct r eqn:?
  | |- context [if ?b then _ else _] => destruct b eqn:?
  end.

Lemma wrap_response_raises r ex :
  wrap_response r = Raise ex → exn_is_exception ex = true.
Proof. apply py_setitem_raises. Qed.

Lemma falsy_is_no_entry v d : truthy v = false → v = VDict d → d = [].
Proof. intros Hv ->. by destruct d. Qed.

(** Handling a response raises before anything is stored, or returns
    through one of three return statements; only the last one stores.  What
    it raises is an [Exception], unless it is what awaiting the body
    raised. *)
Lemma handle_outcome e cp resp w :
  (∃ ex, handle e cp resp w = (Raise ex, w) ∧
         (exn_is_exception ex = true ∨ body_raises resp ex)) ∨
  (∃ msg, handle e cp resp w = (Ok (error_object msg), w)) ∨
  (∃ msg, handle e cp resp w = (Ok (results_object msg), w)) ∨
  (∃ content sources,
     handle e cp resp w =
       (Ok (wrapped_summary content sources),
        World (gateway_set format_value digest (env_writable e) (w_store w)
                 module_name cp (summary_object content sources))
              (w_trace w ++ [CacheSet module_name cp
                               (summary_object content sources)]))).
Proof.
  unfold handle_response, bind, lift, ret, cache_set, body_raises.
  destruct (Z.eqb_spec (resp_status resp) 200) as [Hst|Hst]; simpl;
    repeat step;
    try (left; eexists; split; [reflexivity|];
         first [ by right; eauto
               | by left;
                 eauto using py_get_raises, py_item0_raises, py_iter_raises,
                   extract_content_raises, collect_sources_raises,
                   wrap_response_raises ]);
    eauto 10.
Qed.

(** The guarded part returns through one of the return statements, or lets
    through what cut an await short.  A hit returns the wrapped entry after
    the lookup alone; the summary is the only return that has stored
    something; an error return on a truthy entry means the entry was no
    object. *)
Lemma guarded_outcome e model k q w :
  (∃ p w', guarded e model k q w = (Ok (returned_value p), w') ∧
     match p with
     | ErrorReturn _ =>
         w_store w' = w_store w ∧
         ∀ d, entry e w model q = VDict d → d = []
     | ResultsReturn _ =>
         w_store w' = w_store w ∧ truthy (entry e w model q) = false
     | HitReturn d =>
         entry e w model q = VDict d ∧ d ≠ [] ∧ w' = looked_up w model q
     | SummaryReturn content sources =>
         truthy (entry e w model q) = false ∧
         w_store w' =
           gateway_set format_value digest (env_writable e) (w_store w)
             module_name (cache_params model q)
             (summary_object content sources)
     end) ∨
  (∃ ex, guarded e model k q w = (Raise ex, requested w model k q) ∧
         exn_is_exception ex = false ∧
         truthy (entry e w model q) = false ∧
         await_raises e (request_url model k) (payload q) ex).
Proof.
  destruct (truthy (entry e w model q)) eqn:Hentry.
  - left. rewrite (guarded_hit _ _ _ _ _ Hentry).
    destruct (entry e w model q) as [| | | |l|d] eqn:Hv; simpl;
      try (eexists (ErrorReturn _), _; split; [reflexivity|];
           split; [done|discriminate]).
    exists (HitReturn d), (looked_up w model q).
    split; [reflexivity|]. split; [done|]. split; [|done].
    intros ->. simpl in Hentry. discriminate.
  - pose proof (λ d, falsy_is_no_entry _ d Hentry) as Hnone.
    destruct (env_post e (request_url model k) (payload q))
      as [resp|ex] eqn:Hpost.
    + rewrite (guarded_miss_response _ _ _ _ _ _ Hentry Hpost).
      unfold try_except, ret.
      destruct (handle_outcome e (cache_params model q) resp
                  (requested w model k q))
        as [(ex & -> & Hex)|[[msg ->]|[[msg ->]|(content & sources & ->)]]].
      * destruct (exn_is_exception ex) eqn:Hclass.
        -- left. by eexists (ErrorReturn _), _.
        -- right. exists ex. split; [done|]. split; [done|]. split; [done|].
           destruct Hex as [[=]|Hbody]. right. eauto.
      * left. by eexists (ErrorReturn _), _.
      * left. by eexists (ResultsReturn _), _.
      * left. by eexists (SummaryReturn _ _), _.
    + destruct (exn_is_exception ex) eqn:Hclass.
      * left. rewrite (guarded_miss_raise _ _ _ _ _ _ Hentry Hpost Hclass).
        by eexists (ErrorReturn _), _.
      * right. exists ex.
        rewrite (guarded_miss_interrupted _ _ _ _ _ _ Hentry Hpost Hclass).
        split; [done|]. split; [done|]. split; [done|]. by left.
Qed.

(** Nothing cuts an await short where every await raises [Exception]s
    only. *)
Lemma uninterrupted_awaits e url body ex :
  uninterrupted e → await_raises e url body ex → exn_is_exception ex = true.
Proof.
  intros Hun Hraise. specialize (Hun url body).
  destruct Hraise as [Hpost | (resp & Hpost & [[_ Htext]|[_ Hjson]])];
    rewrite Hpost in Hun.
  - done.
  - destruct Hun as [Hun _]. by rewrite Htext in Hun.
  - destruct Hun as [_ Hun]. by rewrite Hjson in Hun.
Qed.

(** Once the configuration and the query are read, the call returns through
    one of the return statements, unless one of its awaits is cut short. *)
Lemma call_outcome e h ti w cfg q :
  config_of h = Ok cfg →
  read_query ti = Ok q →
  (∃ p w', call e h ti w = (Ok (returned_value p), w') ∧
     match p with
     | HitReturn d =>
         ∃ model, entry e w model q = VDict d ∧ d ≠ [] ∧
                  w' = looked_up w model q
     | SummaryReturn content sources =>
         ∃ model, w_store w' =
           gateway_set format_value digest (env_writable e) (w_store w)
             module_name (cache_params model q)
             (summary_object content sources)
     | _ => w_store w' = w_store w
     end) ∨
  (∃ ex model k,
     call e h ti w = (Raise ex, requested w model k q) ∧
     exn_is_exception ex = false ∧
     is_ready h ti model k q ∧
     truthy (entry e w model q) = false ∧
     await_raises e (request_url model k) (payload q) ex).
Proof.
  intros Hcfg Hq.
  destruct (key_missing (cfg !! CONF_GOOGLE_SEARCH_API_KEY)) eqn:Hkey.
  - left. exists (ErrorReturn "Google Search API key not configured"), w.
    split; [|done].
    unfold async_call, bind, lift, ret. by rewrite Hcfg, Hq, Hkey.
  - apply key_missing_false in Hkey as (k & Hk & Hne).
    set (model := default default_model (cfg !! CONF_GOOGLE_SEARCH_MODEL)).
    assert (is_ready h ti model k q) as Hready by (by exists cfg).
    rewrite (call_ready e _ _ w _ _ _ Hready).
    destruct (guarded_outcome e model k q w)
      as [(p & w' & -> & Hp)|(ex & -> & Hclass & Hmiss & Hraise)].
    + left. exists p, w'. split; [done|].
      destruct p; [by destruct Hp|by destruct Hp|eauto|].
      destruct Hp as [_ Hp]. eauto.
    + right. by exists ex, model, k.
Qed.

(** Where no await is cut short, the call returns. *)
Lemma call_returns e h ti w cfg q :
  config_of h = Ok cfg →
  read_query ti = Ok q →
  uninterrupted e →
  ∃ p w', call e h ti w = (Ok (returned_value p), w') ∧
    match p with
    | HitReturn d =>
        ∃ model, entry e w model q = VDict d ∧ d ≠ [] ∧
                 w' = looked_up w model q
    | SummaryReturn content sources =>
        ∃ model, w_store w' =
          gateway_set format_value digest (env_writable e) (w_store w)
            module_name (cache_params model q)
            (summary_object content sources)
    | _ => w_store w' = w_store w
    end.
Proof.
  intros Hcfg Hq Hun.
  destruct (call_outcome e h ti w cfg q Hcfg Hq)
    as [Hret|(ex & model & k & _ & Hclass & _ & _ & Hraise)]; [done|].
  apply (uninterrupted_awaits _ _ _ _ Hun) in Hraise. congruence.
Qed.

(** ** Wrapping *)

Lemma dict_lookup_set k x d : dict_lookup k (dict_set k x d) = Some x.
Proof.
  induction d as [|[k' v] d IH]; simpl.
  - by rewrite String.eqb_refl.
  - destruct (String.eqb_spec k k') as [->|Hne]; simpl.
    + by rewrite String.eqb_refl.
    + by destruct (String.eqb_spec k k').
Qed.

Lemma response_instruction_nonempty : response_instruction ≠ "".
Proof.
  intros H. apply (f_equal String.length) in H.
  vm_compute in H. discriminate.
Qed.

(** C2, as the code has it: what a call returns is fixed, return statement
    by return statement.  Without a key it is the credential error.  On a
    truthy cache answer it is that answer with the instruction set, or an
    error object when the answer is no object.  On a miss it is an error
    object, a no-results object, or a summary with the instruction.  The
    two wrapping returns carry the fixed, non-empty instruction; the error
    returns and the no-results returns are objects of one item and carry
    none. *)
Theorem instruction_only_on_wrapped_returns e h ti w v w' :
  call e h ti w = (Ok v, w') →
  ∃ cfg q,
    config_of h = Ok cfg ∧ read_query ti = Ok q ∧
    let cached :=
      entry e w (default default_model (cfg !! CONF_GOOGLE_SEARCH_MODEL)) q in
    if key_missing (cfg !! CONF_GOOGLE_SEARCH_API_KEY) then
      v = error_object "Google Search API key not configured" ∧
      field "instruction" v = None
    else if truthy cached then
      match cached with
      | VDict d =>
          v = VDict (dict_set "instruction" (VStr response_instruction) d) ∧
          field "instruction" v = Some (VStr response_instruction) ∧
          response_instruction ≠ ""
      | _ => (∃ msg, v = error_object msg) ∧ field "instruction" v = None
      end
    else
      ((∃ msg, v = error_object msg) ∨ (∃ msg, v = results_object msg)) ∧
        field "instruction" v = None
      ∨
      (∃ content sources, v = wrapped_summary content sources) ∧
        field "instruction" v = Some (VStr response_instruction) ∧
        response_instruction ≠ "".
Proof.
  intros Hcall.
  destruct (config_of h) as [cfg|ex] eqn:Hcfg;
    [|unfold async_call, bind, lift in Hcall; by rewrite Hcfg in Hcall].
  destruct (read_query ti) as [q|ex] eqn:Hq;
    [|unfold async_call, bind, lift in Hcall; by rewrite Hcfg, Hq in Hcall].
  exists cfg, q. split; [done|]. split; [done|]. simpl.
  destruct (key_missing (cfg !! CONF_GOOGLE_SEARCH_API_KEY)) eqn:Hkey.
  { unfold async_call, bind, lift, ret in Hcall.
    rewrite Hcfg, Hq, Hkey in Hcall. by injection Hcall as <- _. }
  apply key_missing_false in Hkey as (k & Hk & Hne).
  set (model := default default_model (cfg !! CONF_GOOGLE_SEARCH_MODEL)).
  assert (is_ready h ti model k q) as Hready by (by exists cfg).
  rewrite (call_ready e _ _ w _ _ _ Hready) in Hcall.
  destruct (guarded_outcome e model k q w)
    as [(p & w1 & Hp & Hfacts)|(ex & Hp & _)];
    rewrite Hp in Hcall; [|discriminate].
  injection Hcall as <- _.
  pose proof response_instruction_nonempty as Hne'.
  destruct (truthy (entry e w model q)) eqn:Hentry.
  - destruct p as [msg|msg|d|content sources].
    + destruct Hfacts as [_ Hnone].
      destruct (entry e w model q) as [| | | |l|d]; simpl; eauto.
      specialize (Hnone d eq_refl) as ->. discriminate.
    + destruct Hfacts as [_ [=]].
    + destruct Hfacts as (-> & _ & _). simpl.
      split; [done|]. split; [apply dict_lookup_set|done].
    + destruct Hfacts as [[=] _].
  - destruct p as [msg|msg|d|content sources]; simpl.
    + left. eauto.
    + left. eauto.
    + destruct Hfacts as (Hd & Hnil & _). rewrite Hd in Hentry.
      destruct d; [done|discriminate].
    + right. eauto.
Qed.

(** ** Failure containment *)

Lemma store_ok_set writable store namespace params content sources :
  store_ok store →
  store_ok (gateway_set format_value digest writable store namespace params
              (summary_object content sources)).
Proof.
  intros Hok k v. unfold gateway_set. destruct writable; [|apply Hok].
  rewrite lookup_insert. case_decide; [|apply Hok].
  intros [= <-]. eauto.
Qed.

Lemma entry_in_store e w model q d :
  entry e w model q = VDict d →
  ∃ k, w_store w !! k = Some (VDict d).
Proof.
  unfold cached_entry, gateway_get.
  destruct (env_readable e); [|discriminate].
  destruct (w_store w !! _) as [v|] eqn:Hk; [|discriminate].
  simpl. intros ->. eauto.
Qed.

(** C1, as the code has it: once the configuration and the query argument
    have been read (lines 66 to 70, which no handler covers), and as long as
    no await is cut short by a cancellation or another exception outside
    [Exception] (which line 149 does not catch), the call does not raise.
    Whatever the cache, the endpoint and the parsing do, it returns a value;
    and over a store that holds what the tool itself caches, that value is
    one of the three ToolResult shapes and the store stays such a store. *)
Theorem returns_once_inputs_are_read e h ti w cfg q :
  config_of h = Ok cfg →
  read_query ti = Ok q →
  uninterrupted e →
  ∃ v w', call e h ti w = (Ok v, w') ∧
          (store_ok (w_store w) → tool_result v ∧ store_ok (w_store w')).
Proof.
  intros Hcfg Hq Hun.
  destruct (call_returns e h ti w cfg q Hcfg Hq Hun) as (p & w' & Hcall & Hp).
  exists (returned_value p), w'. split; [done|]. intros Hok.
  destruct p as [msg|msg|d|content sources]; simpl.
  - rewrite Hp. split; [constructor|done].
  - rewrite Hp. split; [constructor|done].
  - destruct Hp as (model & Hentry & _ & ->).
    apply entry_in_store in Hentry as (k & Hk).
    apply Hok in Hk as (content & sources & [= ->]).
    split; [constructor|done].
  - destruct Hp as (model & ->).
    split; [constructor|]. by apply store_ok_set.
Qed.

(** A cancellation delivered while the request is awaited reaches the
    caller: the handler of line 149 lets it through. *)
Lemma cancellation_escapes e h ti w model k q :
  is_ready h ti model k q →
  truthy (entry e w model q) = false →
  env_post e (request_url model k) (payload q) = Raise CancelledError →
  call e h ti w = (Raise CancelledError, requested w model k q).
Proof.
  intros Hready Hmiss Hpost.
  rewrite (call_ready e _ _ w _ _ _ Hready).
  by apply guarded_miss_interrupted.
Qed.

(** ** Cache hits *)

Lemma entry_hit e w model q v :
  env_readable e = true →
  w_store w !! deriveKey format_value digest module_name
                 (cache_params model q) = Some v →
  entry e w model q = v.
Proof.
  intros Hread Hk. unfold cached_entry, gateway_get. by rewrite Hread, Hk.
Qed.

(** One call over a readable store that holds a non-empty object for the
    key: the object is returned wrapped, after the lookup alone. *)
Lemma call_hit e h ti w model k q d :
  is_ready h ti model k q →
  env_readable e = true →
  w_store w !! deriveKey format_value digest module_name
                 (cache_params model q) = Some (VDict d) →
  d ≠ [] →
  call e h ti w = (Ok (returned_value (HitReturn d)), looked_up w model q).
Proof.
  intros Hready Hread Hk Hd.
  rewrite (call_ready e _ _ w _ _ _ Hready).
  pose proof (entry_hit e w model q _ Hread Hk) as Hentry.
  rewrite guarded_hit; rewrite Hentry; [done|].
  by destruct d.
Qed.

Lemma run_calls_hit h ti model k q d envs : ∀ w,
  is_ready h ti model k q →
  Forall (λ e, env_readable e = true) envs →
  w_store w !! deriveKey format_value digest module_name
                 (cache_params model q) = Some (VDict d) →
  d ≠ [] →
  run_calls (λ e, call e h ti) envs w =
    ((λ _, Ok (returned_value (HitReturn d))) <$> envs,
     World (w_store w)
           (w_trace w ++
              ((λ _, CacheGet module_name (cache_params model q)) <$> envs))).
Proof.
  induction envs as [|e envs IH]; intros w Hready Hread Hk Hd; simpl.
  - rewrite app_nil_r. by destruct w.
  - apply Forall_cons in Hread as [He Hread].
    rewrite (call_hit e h ti w model k q d) by done.
    rewrite (IH (looked_up w model q)) by done.
    simpl. by rewrite <- app_assoc.
Qed.

Lemma requests_after_lookups w (gets : list event) :
  Forall (λ ev, is_post ev = false) gets →
  requests (World (w_store w) (w_trace w ++ gets)) = requests w.
Proof.
  intros Hgets. unfold requests. simpl. rewrite filter_app.
  assert (filter (λ ev, is_post ev) gets = []) as ->; [|apply app_nil_r].
  induction Hgets as [|ev gets Hev _ IH]; [done|].
  rewrite filter_cons_False; [done|]. rewrite Hev. exact id.
Qed.

(** C3: while the store holds an entry (a cached answer with its citations)
    for the key of (model, query) and answers reads, every call with that
    model and query returns the cached answer and citations wrapped with the
    instruction and sends no HTTP request: however many such calls are made
    in a row, the list of requests sent and the store are what they were
    before the first of them. *)
Theorem cache_hit_sends_no_request h ti model k q content sources envs w :
  is_ready h ti model k q →
  Forall (λ e, env_readable e = true) envs →
  w_store w !! deriveKey format_value digest module_name
                 (cache_params model q)
    = Some (summary_object content sources) →
  let out := run_calls (λ e, call e h ti) envs w in
  out.1 = (λ _, Ok (wrapped_summary content sources)) <$> envs ∧
  requests out.2 = requests w ∧
  w_store out.2 = w_store w.
Proof.
  intros Hready Hread Hk.
  rewrite (run_calls_hit h ti model k q _ envs w Hready Hread Hk) by done.
  simpl. split; [done|]. split; [|done].
  apply requests_after_lookups. by apply Forall_fmap, Forall_true.
Qed.

(** The store of a new installation, and the store after any call on a
    store that holds what the tool caches, hold what the tool caches. *)
Lemma store_ok_empty : store_ok ∅.
Proof. intros k v. by rewrite lookup_empty. Qed.

Lemma store_ok_preserved e h ti w r w' :
  call e h ti w = (r, w') → store_ok (w_store w) → store_ok (w_store w').
Proof.
  intros Hcall Hok.
  destruct (config_of h) as [cfg|ex] eqn:Hcfg;
    [|unfold async_call, bind, lift in Hcall; rewrite Hcfg in Hcall;
      by injection Hcall as _ <-].
  destruct (read_query ti) as [q|ex] eqn:Hq;
    [|unfold async_call, bind, lift in Hcall; rewrite Hcfg, Hq in Hcall;
      by injection Hcall as _ <-].
  destruct (call_outcome e h ti w cfg q Hcfg Hq)
    as [(p & w1 & Hp & Hw)|(ex & model & k & Hp & _)];
    rewrite Hp in Hcall; injection Hcall as _ <-; [|done].
  destruct p as [msg|msg|d|content sources].
  - by rewrite Hw.
  - by rewrite Hw.
  - by destruct Hw as (model & _ & _ & ->).
  - destruct Hw as (model & ->). by apply store_ok_set.
Qed.

(** X6, cache idempotence: after a call has returned a summary, on a store that
    takes writes, the same call over a store that answers reads returns the
    same summary after the lookup alone, whatever has become of the
    endpoint. *)
Lemma repeated_call_served_from_cache
    e1 e2 h ti w w1 model k q content sources :
  is_ready h ti model k q →
  env_writable e1 = true →
  env_readable e2 = true →
  call e1 h ti w = (Ok (wrapped_summary content sources), w1) →
  call e2 h ti w1 =
    (Ok (wrapped_summary content sources), looked_up w1 model q).
Proof.
  intros Hready Hwrite Hread Hcall.
  rewrite (call_ready e1 _ _ w _ _ _ Hready) in Hcall.
  destruct (guarded_outcome e1 model k q w)
    as [(p & w' & Hp & Hw)|(ex & Hp & _)];
    rewrite Hp in Hcall; [|discriminate].
  injection Hcall as Hval <-.
  destruct p as [msg|msg|d|c s]; try discriminate.
  - destruct Hw as (Hentry & Hd & ->). simpl in Hval. rewrite <- Hval.
    apply (call_hit e2 h ti _ model k q d); [done..| |done].
    unfold cached_entry, gateway_get in Hentry. simpl.
    destruct (env_readable e1); [|discriminate].
    destruct (w_store w !! _) as [v|]; [|discriminate].
    simpl in Hentry. by rewrite Hentry.
  - injection Hval as -> ->.
    assert (wrapped_summary content sources
            = returned_value (HitReturn [("answer_summary", content);
                                         ("sources", VList sources)])) as ->
      by reflexivity.
    apply (call_hit e2 h ti w' model k q); [done..| |done].
    destruct Hw as [_ ->]. unfold gateway_set. rewrite Hwrite.
    apply lookup_insert_eq.
Qed.

(** ** Citations *)

(** The loop appends, in order, the citation of every attribution whose
    web sub-object is not empty. *)
Lemma collect_sources_ok attrs : ∀ sources,
  Forall attribution_ok attrs →
  collect_sources attrs sources =
    Ok (sources ++ (citation_of <$> filter (λ a, web_nonempty a) attrs))%list.
Proof.
  induction attrs as [|attr attrs IH]; intros sources Hok; simpl.
  - by rewrite app_nil_r.
  - apply Forall_cons in Hok as [(d & -> & Hweb) Hok].
    destruct Hweb as [Hweb | [[|item web] Hweb]]; simpl; rewrite Hweb; simpl.
    + rewrite filter_cons_False; [by apply IH|].
      unfold web_nonempty. simpl. rewrite Hweb. exact id.
    + rewrite filter_cons_False; [by apply IH|].
      unfold web_nonempty. simpl. rewrite Hweb. exact id.
    + rewrite filter_cons_True by (unfold web_nonempty; simpl; by rewrite Hweb).
      rewrite IH by done. simpl.
      unfold citation_of at 2. simpl. rewrite Hweb. simpl.
      by rewrite <- app_assoc.
Qed.

(** A status of 200 whose body has a first candidate with text or
    citations: the summary is stored, then returned wrapped. *)
Lemma handle_summary e cp resp data candidate content attrs w :
  resp_status resp = 200%Z →
  resp_json resp = Ok data →
  response_parts data candidate content attrs →
  Forall attribution_ok attrs →
  truthy content = true ∨ filter (λ a, web_nonempty a) attrs ≠ [] →
  let sources := citation_of <$> filter (λ a, web_nonempty a) attrs in
  handle e cp resp w =
    (Ok (wrapped_summary content (take 3 sources)),
     World (gateway_set format_value digest (env_writable e) (w_store w)
              module_name cp (summary_object content (take 3 sources)))
           (w_trace w ++ [CacheSet module_name cp
                            (summary_object content (take 3 sources))])).
Proof.
  intros Hst Hjson (candidates & metadata & attributions & Hcands & Htruthy
                    & Hcand & Hcontent & Hmeta & Hattrs & Hiter) Hok Hsome.
  unfold handle_response, bind, lift, ret, cache_set. simpl.
  rewrite Hst, Hjson. simpl.
  rewrite Hcands, Htruthy. simpl.
  rewrite Hcand, Hcontent, Hmeta, Hattrs, Hiter.
  rewrite (collect_sources_ok attrs [] Hok), app_nil_l.
  destruct Hsome as [-> | Hne]; [done|].
  destruct (filter _ attrs) as [|a srcs]; [done|].
  simpl. by rewrite andb_false_r.
Qed.

(** C7, as the code has it: for a response whose attributions are objects
    (each without a web item, or with an object for it), the sources of the
    returned summary are the first three at most, in the order of the
    response, of the citations of the attributions whose web sub-object is
    not empty; a citation holds the title and the uri of the web
    sub-object, and [None] for whichever is missing.  An attribution whose
    web sub-object is empty gives no citation. *)
Theorem sources_are_first_three_citations
    e h ti w model k q resp data candidate content attrs :
  is_ready h ti model k q →
  truthy (entry e w model q) = false →
  env_post e (request_url model k) (payload q) = Ok resp →
  resp_status resp = 200%Z →
  resp_json resp = Ok data →
  response_parts data candidate content attrs →
  Forall attribution_ok attrs →
  truthy content = true ∨ filter (λ a, web_nonempty a) attrs ≠ [] →
  (call e h ti w).1 =
    Ok (wrapped_summary content
          (take 3 (citation_of <$> filter (λ a, web_nonempty a) attrs))).
Proof.
  intros Hready Hmiss Hpost Hst Hjson Hparts Hok Hsome.
  rewrite (call_ready e _ _ w _ _ _ Hready).
  rewrite (guarded_miss_response _ _ _ _ _ _ Hmiss Hpost).
  unfold try_except.
  by rewrite (handle_summary _ _ _ data candidate content attrs).
Qed.

(** ** The text of the first candidate *)

(** A candidate without content, a content without parts and a first part
    without text all give the empty string. *)
Lemma extract_content_absent c :
  dict_lookup "content" c = None ∨
  (∃ ct, dict_lookup "content" c = Some (VDict ct) ∧
         (dict_lookup "parts" ct = None ∨
          ∃ part rest, dict_lookup "parts" ct
                         = Some (VList (VDict part :: rest)) ∧
                       dict_lookup "text" part = None)) →
  extract_content (VDict c) = Ok (VStr "").
Proof.
  unfold extract_content. simpl.
  intros [Hc | (ct & Hc & [Hp | (part & rest & Hp & Htext)])];
    rewrite Hc; simpl; [done| |]; rewrite Hp; simpl; [done|].
  by rewrite Htext.
Qed.

(** A parts list that is there but empty has no first item. *)
Lemma extract_content_empty_parts c ct :
  dict_lookup "content" c = Some (VDict ct) →
  dict_lookup "parts" ct = Some (VList []) →
  extract_content (VDict c) =
    Raise (Exn "IndexError" "list index out of range").
Proof.
  intros Hc Hp. unfold extract_content. simpl. rewrite Hc. simpl.
  by rewrite Hp.
Qed.

(** C8, at the input where the code departs from it: when the first
    candidate of a response holds a content whose parts list is empty,
    taking the first part raises, the handler catches it, and the call
    returns an error object instead of going on with the empty string. *)
Theorem empty_parts_reach_error_branch
    e h ti w model k q resp data candidates c ct :
  is_ready h ti model k q →
  truthy (entry e w model q) = false →
  env_post e (request_url model k) (payload q) = Ok resp →
  resp_status resp = 200%Z →
  resp_json resp = Ok data →
  py_get data "candidates" (VList []) = Ok candidates →
  truthy candidates = true →
  py_item0 candidates = Ok (VDict c) →
  dict_lookup "content" c = Some (VDict ct) →
  dict_lookup "parts" ct = Some (VList []) →
  call e h ti w =
    (Ok (error_object
           "An error occurred during search: list index out of range"),
     requested w model k q).
Proof.
  intros Hready Hmiss Hpost Hst Hjson Hcands Htruthy Hcand Hc Hp.
  rewrite (call_ready e _ _ w _ _ _ Hready).
  rewrite (guarded_miss_response _ _ _ _ _ _ Hmiss Hpost).
  unfold try_except, handle_response, bind, lift, ret.
  rewrite Hst, Hjson. simpl. rewrite Hcands, Htruthy. simpl.
  rewrite Hcand. by rewrite (extract_content_empty_parts c ct).
Qed.
End Steps.

(** ** Key derivation *)

Section KeyDerivation.
Variable format_value : value → string.
Variable digest : string → string.

Lemma leb_trans s1 : ∀ s2 s3,
  String.leb s1 s2 = true → String.leb s2 s3 = true → String.leb s1 s3 = true.
Proof.
  unfold String.leb.
  induction s1 as [|a s1 IH]; intros [|b s2] [|c s3]; simpl; try done.
  destruct (Ascii.compare a b) eqn:Hab; try done;
    destruct (Ascii.compare b c) eqn:Hbc; try done.
  - apply Ascii.compare_eq_iff in Hab as ->. rewrite Hbc. apply IH.
  - apply Ascii.compare_eq_iff in Hab as ->. by rewrite Hbc.
  - apply Ascii.compare_eq_iff in Hbc as <-. by rewrite Hab.
  - unfold Ascii.compare in *. rewrite N.compare_lt_iff in Hab, Hbc.
    assert (N_of_ascii a < N_of_ascii c)%N as Hac by lia.
    apply N.compare_lt_iff in Hac. by rewrite Hac.
Qed.

#[local] Instance key_le_trans : Transitive key_le.
Proof. intros p q r. unfold key_le. apply leb_trans. Qed.

#[local] Instance key_le_total : Total key_le.
Proof. intros p q. unfold key_le. apply String.leb_total. Qed.

(** In a mapping a name has one value. *)
Lemma same_name_same_item (params : list (string * value)) p1 p2 :
  NoDup params.*1 → p1 ∈ params → p2 ∈ params → p1.1 = p2.1 → p1 = p2.
Proof.
  induction params as [|p params IH]; simpl; [by intros _ ?%elem_of_nil|].
  rewrite NoDup_cons. intros [Hp Hnd] H1 H2 Heq.
  apply elem_of_cons in H1 as [-> | H1], H2 as [-> | H2]; [done| | |by apply IH].
  - exfalso. apply Hp. rewrite Heq. by apply list_elem_of_fmap_2.
  - exfalso. apply Hp. rewrite <- Heq. by apply list_elem_of_fmap_2.
Qed.

(** Two orders of the same items have one canonical order. *)
Lemma canonical_permutation (params params' : list (string * value)) :
  params ≡ₚ params' → NoDup params.*1 → canonical params = canonical params'.
Proof.
  intros Hperm Hnd. unfold canonical.
  apply (StronglySorted_unique_strong key_le).
  - intros p1 p2 H1 H2 H12 H21.
    apply (same_name_same_item params); [done| | |].
    + by rewrite <- (merge_sort_Permutation key_le params).
    + rewrite Hperm. by rewrite <- (merge_sort_Permutation key_le params').
    + by apply String.leb_antisym.
  - apply StronglySorted_merge_sort; apply _.
  - apply StronglySorted_merge_sort; apply _.
  - by rewrite !merge_sort_Permutation.
Qed.

(** C9: two parameter mappings that hold the same name/value pairs, in
    whatever order they were inserted, derive the same key in every
    namespace; the key of a call is therefore fixed by its model and
    query. *)
Theorem deriveKey_order_independent
    (namespace : string) (params params' : list (string * value)) :
  NoDup params.*1 →
  params ≡ₚ params' →
  deriveKey format_value digest namespace params
    = deriveKey format_value digest namespace params'.
Proof.
  intros Hnd Hperm. unfold deriveKey.
  by rewrite (canonical_permutation params params').
Qed.
End KeyDerivation.

(** * The theorems at work on the concrete installation *)

(** The installation with the key ["secret"] is ready for the call. *)
Ltac demo_ready :=
  exists ({[ Demo.conf_api_key := "secret" ]} : gmap string string);
  repeat split; try (vm_compute; reflexivity); discriminate.

Lemma missing_key_short_circuit_witness :
  Demo.call (Demo.answering (Demo.json_response 200 (VDict [])))
    (Demo.installation "") Demo.input Demo.fresh =
  (Ok (error_object "Google Search API key not configured"), Demo.fresh).
Proof.
  apply (missing_key_short_circuit Demo.domain Demo.conf_api_key Demo.conf_model
           Demo.format_value id _ _ _ _
           ({[ Demo.conf_api_key := "" ]} : gmap string string)
           (VStr "weather")).
  - vm_compute. reflexivity.
  - vm_compute. reflexivity.
  - right. vm_compute. reflexivity.
Defined.

Lemma upstream_error_status_witness :
  Demo.call (Demo.answering (Demo.json_response 500 (VDict [])))
    (Demo.installation "secret") Demo.input Demo.fresh =
  (Ok (error_object "Search error: status 500"),
   requested Demo.fresh default_model "secret" (VStr "weather")).
Proof.
  apply (upstream_error_status Demo.domain Demo.conf_api_key Demo.conf_model
           Demo.format_value id
           (Demo.answering (Demo.json_response 500 (VDict [])))
           (Demo.installation "secret") Demo.input Demo.fresh
           default_model "secret" (VStr "weather")
           (Response 500 (Ok "body") (Ok (VDict []))) "body").
  - demo_ready.
  - vm_compute. reflexivity.
  - reflexivity.
  - simpl. lia.
  - reflexivity.
Defined.

Lemma only_200_is_parsed_witness :
  Demo.call
    (Demo.answering
       (Ok (Response 204 (Ok "") (Raise (Exn "ContentTypeError" "no body")))))
    (Demo.installation "secret") Demo.input Demo.fresh =
  (Ok (error_object "Search error: status 204"),
   requested Demo.fresh default_model "secret" (VStr "weather")).
Proof.
  apply (only_200_is_parsed Demo.domain Demo.conf_api_key Demo.conf_model
           Demo.format_value id _ (Demo.installation "secret") Demo.input
           Demo.fresh default_model "secret" (VStr "weather") 204 ""
           (Raise (Exn "ContentTypeError" "no body"))).
  - demo_ready.
  - vm_compute. reflexivity.
  - reflexivity.
  - lia.
Defined.

Lemma no_candidates_no_information_witness :
  Demo.call
    (Demo.answering (Demo.json_response 200 (VDict [("candidates", VList [])])))
    (Demo.installation "secret") Demo.input Demo.fresh =
  (Ok (results_object "Информация не найдена."),
   requested Demo.fresh default_model "secret" (VStr "weather")).
Proof.
  apply (no_candidates_no_information Demo.domain Demo.conf_api_key
           Demo.conf_model Demo.format_value id _
           (Demo.installation "secret") Demo.input Demo.fresh
           default_model "secret" (VStr "weather")
           (Response 200 (Ok "body") (Ok (VDict [("candidates", VList [])])))
           [("candidates", VList [])]).
  - demo_ready.
  - vm_compute. reflexivity.
  - reflexivity.
  - reflexivity.
  - reflexivity.
  - right. reflexivity.
Defined.

(** Five attributions with a web sub-object each; the second has no title. *)
Lemma sources_are_first_three_citations_witness :
  let attrs :=
    [Demo.web "a" "1"; VDict [("web", VDict [("uri", VStr "2")])];
     Demo.web "c" "3"; Demo.web "d" "4"; Demo.web "e" "5"] in
  (Demo.call
     (Demo.answering
        (Demo.json_response 200 (Demo.body (Demo.text_parts "sunny") attrs)))
     (Demo.installation "secret") Demo.input Demo.fresh).1 =
  Ok (wrapped_summary (VStr "sunny")
        [VDict [("title", VStr "a"); ("url", VStr "1")];
         VDict [("title", VNone); ("url", VStr "2")];
         VDict [("title", VStr "c"); ("url", VStr "3")]]).
Proof.
  intros attrs.
  apply (sources_are_first_three_citations Demo.domain Demo.conf_api_key
           Demo.conf_model Demo.format_value id _
           (Demo.installation "secret") Demo.input Demo.fresh
           default_model "secret" (VStr "weather")
           (Response 200 (Ok "body")
              (Ok (Demo.body (Demo.text_parts "sunny") attrs)))
           (Demo.body (Demo.text_parts "sunny") attrs)
           (VDict [("content", VDict [("parts", Demo.text_parts "sunny")]);
                   ("groundingMetadata",
                    VDict [("groundingAttributions", VList attrs)])])
           (VStr "sunny") attrs).
  - demo_ready.
  - vm_compute. reflexivity.
  - reflexivity.
  - reflexivity.
  - reflexivity.
  - eexists _, _, _. repeat split; reflexivity.
  - repeat constructor; eexists; (split; [reflexivity|]); right; eexists;
      reflexivity.
  - left. reflexivity.
Defined.

Lemma empty_parts_reach_error_branch_witness :
  Demo.call
    (Demo.answering (Demo.json_response 200 (Demo.body (VList []) [])))
    (Demo.installation "secret") Demo.input Demo.fresh =
  (Ok (error_object "An error occurred during search: list index out of range"),
   requested Demo.fresh default_model "secret" (VStr "weather")).
Proof.
  apply (empty_parts_reach_error_branch Demo.domain Demo.conf_api_key
           Demo.conf_model Demo.format_value id _
           (Demo.installation "secret") Demo.input Demo.fresh
           default_model "secret" (VStr "weather")
           (Response 200 (Ok "body") (Ok (Demo.body (VList []) [])))
           (Demo.body (VList []) [])
           (VList [VDict [("content", VDict [("parts", VList [])]);
                          ("groundingMetadata",
                           VDict [("groundingAttributions", VList [])])]])
           [("content", VDict [("parts", VList [])]);
            ("groundingMetadata",
             VDict [("groundingAttributions", VList [])])]
           [("parts", VList [])]).
  - demo_ready.
  - vm_compute. reflexivity.
  - reflexivity.
  - reflexivity.
  - reflexivity.
  - reflexivity.
  - reflexivity.
  - reflexivity.
  - reflexivity.
  - reflexivity.
Defined.

Lemma deriveKey_order_independent_witness :
  deriveKey Demo.format_value id module_name
    [("model", VStr "m"); ("query", VStr "q")]
  = deriveKey Demo.format_value id module_name
      [("query", VStr "q"); ("model", VStr "m")].
Proof.
  apply (deriveKey_order_independent Demo.format_value id module_name
           [("model", VStr "m"); ("query", VStr "q")]
           [("query", VStr "q"); ("model", VStr "m")]).
  - apply (bool_decide_unpack _). vm_compute. exact I.
  - apply Permutation_swap.
Defined.

(** Two calls in a row over a store that holds the entry, while the endpoint
    is out of reach. *)
Lemma cache_hit_sends_no_request_witness :
  let unreachable := Demo.answering (Raise (Exn "ClientError" "unreachable")) in
  let out :=
    run_calls (λ e, Demo.call e (Demo.installation "secret") Demo.input)
      [unreachable; unreachable] Demo.warm in
  out.1 =
    (λ _, Ok (wrapped_summary (VStr "sunny")
                [VDict [("title", VStr "t"); ("url", VStr "u")]]))
      <$> [unreachable; unreachable] ∧
  requests out.2 = requests Demo.warm ∧
  w_store out.2 = w_store Demo.warm.
Proof.
  intros unreachable.
  apply (cache_hit_sends_no_request Demo.domain Demo.conf_api_key
           Demo.conf_model Demo.format_value id
           (Demo.installation "secret") Demo.input
           default_model "secret" (VStr "weather")
           (VStr "sunny") [VDict [("title", VStr "t"); ("url", VStr "u")]]
           [unreachable; unreachable] Demo.warm).
  - demo_ready.
  - repeat constructor.
  - vm_compute. reflexivity.
Defined.

(** A hit: the cached answer comes back with the instruction set. *)
Lemma instruction_only_on_wrapped_returns_witness :
  let unreachable := Demo.answering (Raise (Exn "ClientError" "unreachable")) in
  let v :=
    VDict (dict_set "instruction" (VStr response_instruction)
             [("answer_summary", VStr "sunny");
              ("sources",
               VList [VDict [("title", VStr "t"); ("url", VStr "u")]])]) in
  ∃ cfg q,
    read_config Demo.domain (Demo.installation "secret") = Ok cfg ∧
    read_query Demo.input = Ok q ∧
    let cached :=
      cached_entry Demo.format_value id unreachable Demo.warm
        (default default_model (cfg !! Demo.conf_model)) q in
    if key_missing (cfg !! Demo.conf_api_key) then
      v = error_object "Google Search API key not configured" ∧
      field "instruction" v = None
    else if truthy cached then
      match cached with
      | VDict d =>
          v = VDict (dict_set "instruction" (VStr response_instruction) d) ∧
          field "instruction" v = Some (VStr response_instruction) ∧
          response_instruction ≠ ""
      | _ => (∃ msg, v = error_object msg) ∧ field "instruction" v = None
      end
    else
      ((∃ msg, v = error_object msg) ∨ (∃ msg, v = results_object msg)) ∧
        field "instruction" v = None
      ∨
      (∃ content sources, v = wrapped_summary content sources) ∧
        field "instruction" v = Some (VStr response_instruction) ∧
        response_instruction ≠ "".
Proof.
  intros unreachable v.
  apply (instruction_only_on_wrapped_returns Demo.domain Demo.conf_api_key
           Demo.conf_model Demo.format_value id unreachable
           (Demo.installation "secret") Demo.input Demo.warm v
           (looked_up Demo.warm default_model (VStr "weather"))).
  vm_compute. reflexivity.
Defined.

Lemma returns_once_inputs_are_read_witness :
  ∃ v w',
    Demo.call (Demo.answering (Raise (Exn "ClientError" "unreachable")))
      (Demo.installation "secret") Demo.input Demo.fresh = (Ok v, w') ∧
    (store_ok (w_store Demo.fresh) → tool_result v ∧ store_ok (w_store w')).
Proof.
  apply (returns_once_inputs_are_read Demo.domain Demo.conf_api_key
           Demo.conf_model Demo.format_value id _
           (Demo.installation "secret") Demo.input Demo.fresh
           ({[ Demo.conf_api_key := "secret" ]} : gmap string string)
           (VStr "weather")).
  - vm_compute. reflexivity.
  - vm_compute. reflexivity.
  - intros url body. simpl. reflexivity.
Defined.

(** * Where the code departs from the claims as worded *)

(** C1 as worded fails: on a host whose data holds nothing for the domain,
    reading the configuration raises [KeyError] before the handler is
    entered, and the exception reaches the caller. *)
Lemma config_read_failure_escapes :
  Demo.call (Demo.answering (Demo.json_response 200 (VDict [])))
    Demo.bare_host Demo.input Demo.fresh
  = (Raise (Exn "KeyError" "'llm_intents'"), Demo.fresh).
Proof. vm_compute. reflexivity. Qed.

(** C2 as worded fails: the return for a response without candidates is a
    no-results return, and it has no instruction field. *)
Lemma no_results_return_lacks_instruction :
  let out :=
    Demo.call
      (Demo.answering
         (Demo.json_response 200 (VDict [("candidates", VList [])])))
      (Demo.installation "secret") Demo.input Demo.fresh in
  out.1 = Ok (results_object "Информация не найдена.") ∧
  field "instruction" (results_object "Информация не найдена.") = None.
Proof. split; vm_compute; reflexivity. Qed.

(** C7 as worded fails: the first attribution carries a web sub-object, an
    empty one; the wording gives it a citation with title and url absent,
    the code gives it none. *)
Lemma empty_web_object_is_dropped :
  let attrs := [VDict [("web", VDict [])]; Demo.web "a" "1"] in
  let out :=
    Demo.call
      (Demo.answering
         (Demo.json_response 200 (Demo.body (Demo.text_parts "sunny") attrs)))
      (Demo.installation "secret") Demo.input Demo.fresh in
  out.1 = Ok (wrapped_summary (VStr "sunny")
                [VDict [("title", VStr "a"); ("url", VStr "1")]]) ∧
  citations_spec attrs =
    [VDict [("title", VNone); ("url", VNone)];
     VDict [("title", VStr "a"); ("url", VStr "1")]].
Proof. split; vm_compute; reflexivity. Qed.

(** C5 as worded fails: a response with status 502 whose body cannot be read
    (awaiting the text for the log line raises) is not answered with the
    status error: the handler reports the reading failure and the status is
    lost. *)
Lemma bad_gateway_with_unreadable_body :
  Demo.call
    (Demo.answering
       (Ok (Response 502 (Raise (Exn "ClientPayloadError" "incomplete"))
              (Ok VNone))))
    (Demo.installation "secret") Demo.input Demo.fresh
  = (Ok (error_object "An error occurred during search: incomplete"),
     requested Demo.fresh default_model "secret" (VStr "weather")) ∧
  error_object "An error occurred during search: incomplete"
    ≠ error_object ("Search error: status " +:+ pretty 502%Z).
Proof. split; [vm_compute; reflexivity|vm_compute; discriminate]. Qed.

(** C6 as worded fails: a response of the success class other than 200, here
    201, with an empty candidates list is answered with the status error,
    not with the no-information object. *)
Lemma created_without_candidates_is_an_error :
  Demo.call
    (Demo.answering (Demo.json_response 201 (VDict [("candidates", VList [])])))
    (Demo.installation "secret") Demo.input Demo.fresh
  = (Ok (error_object "Search error: status 201"),
     requested Demo.fresh default_model "secret" (VStr "weather")).
Proof. vm_compute. reflexivity. Qed.

(** C10 as worded fails: a response with status 204 whose body cannot be
    read is not answered with the status error either; it is still not
    parsed. *)
Lemma no_content_with_unreadable_body :
  Demo.call
    (Demo.answering
       (Ok (Response 204 (Raise (Exn "ClientPayloadError" "incomplete"))
              (Ok VNone))))
    (Demo.installation "secret") Demo.input Demo.fresh
  = (Ok (error_object "An error occurred during search: incomplete"),
     requested Demo.fresh default_model "secret" (VStr "weather")) ∧
  error_object "An error occurred during search: incomplete"
    ≠ error_object ("Search error: status " +:+ pretty 204%Z).
Proof. split; [vm_compute; reflexivity|vm_compute; discriminate]. Qed.


(** * Further properties of the call *)

Section Coverage.
Variables DOMAIN CONF_GOOGLE_SEARCH_API_KEY CONF_GOOGLE_SEARCH_MODEL : string.
Variable format_value : value → string.
Variable digest : string → string.

Abbreviation call :=
  (async_call DOMAIN CONF_GOOGLE_SEARCH_API_KEY CONF_GOOGLE_SEARCH_MODEL
     format_value digest).
Abbreviation config_of := (read_config DOMAIN).
Abbreviation is_ready :=
  (ready DOMAIN CONF_GOOGLE_SEARCH_API_KEY CONF_GOOGLE_SEARCH_MODEL).
Abbreviation entry := (cached_entry format_value digest).
Abbreviation guarded := (guarded_call format_value digest).
Abbreviation handle := (handle_response format_value digest).
Abbreviation generic_error ex :=
  (error_object ("An error occurred during search: " +:+ exn_str ex)).

(** ** What the handler reports *)

(** X1: when the cache misses and sending the request raises an
    [Exception] (no network, a timeout), the call does not raise: it returns
    the error object that carries the exception's text, after exactly the
    lookup and the one request, and the store is untouched. *)
Theorem request_failure_is_reported e h ti w model k q ex :
  is_ready h ti model k q →
  truthy (entry e w model q) = false →
  env_post e (request_url model k) (payload q) = Raise ex →
  exn_is_exception ex = true →
  call e h ti w = (Ok (generic_error ex), requested w model k q).
Proof.
  intros Hready Hmiss Hpost Hex.
  rewrite (call_ready _ _ _ _ _ e _ _ w _ _ _ Hready).
  by apply guarded_miss_raise.
Qed.

(** X2: a response with status 200 whose body does not parse as JSON (the
    parser raises an [Exception]) makes the call return the error object
    with the parser's message; nothing is cached. *)
Theorem malformed_json_is_reported e h ti w model k q resp ex :
  is_ready h ti model k q →
  truthy (entry e w model q) = false →
  env_post e (request_url model k) (payload q) = Ok resp →
  resp_status resp = 200%Z →
  resp_json resp = Raise ex →
  exn_is_exception ex = true →
  call e h ti w = (Ok (generic_error ex), requested w model k q).
Proof.
  intros Hready Hmiss Hpost Hst Hjson Hex.
  rewrite (call_ready _ _ _ _ _ e _ _ w _ _ _ Hready).
  rewrite (guarded_miss_response _ _ _ _ _ _ _ _ Hmiss Hpost).
  unfold try_except, handle_response, bind, lift, ret.
  rewrite Hst, Hjson. simpl. by rewrite Hex.
Qed.

(** X3: a response with a status other than 200 whose body cannot be read
    (the logging statement awaits it, and reading raises an [Exception])
    loses its status: the call returns the error object with the reading
    exception's message, not the status error. *)
Theorem unreadable_error_body_is_reported e h ti w model k q resp ex :
  is_ready h ti model k q →
  truthy (entry e w model q) = false →
  env_post e (request_url model k) (payload q) = Ok resp →
  resp_status resp ≠ 200%Z →
  resp_text resp = Raise ex →
  exn_is_exception ex = true →
  call e h ti w = (Ok (generic_error ex), requested w model k q).
Proof.
  intros Hready Hmiss Hpost Hst Htext Hex.
  rewrite (call_ready _ _ _ _ _ e _ _ w _ _ _ Hready).
  rewrite (guarded_miss_response _ _ _ _ _ _ _ _ Hmiss Hpost).
  unfold try_except.
  rewrite (handle_other_status_unreadable _ _ _ _ _ ex) by done.
  by rewrite Hex.
Qed.

(** ** The empty-result guard and the cache store *)

(** X4: a response with status 200 whose first candidate has no text (or an
    empty one) and whose attributions give no citation makes the call return
    the second no-results object, worded in English, and nothing is
    cached. *)
Theorem empty_result_is_not_cached
    e h ti w model k q resp data candidate content attrs :
  is_ready h ti model k q →
  truthy (entry e w model q) = false →
  env_post e (request_url model k) (payload q) = Ok resp →
  resp_status resp = 200%Z →
  resp_json resp = Ok data →
  response_parts data candidate content attrs →
  Forall attribution_ok attrs →
  truthy content = false →
  filter (λ a, web_nonempty a) attrs = [] →
  call e h ti w =
    (Ok (results_object "No information found."), requested w model k q).
Proof.
  intros Hready Hmiss Hpost Hst Hjson
    (candidates & metadata & attributions & Hcands & Htruthy
     & Hcand & Hcontent & Hmeta & Hattrs & Hiter) Hok Hempty Hnone.
  rewrite (call_ready _ _ _ _ _ e _ _ w _ _ _ Hready).
  rewrite (guarded_miss_response _ _ _ _ _ _ _ _ Hmiss Hpost).
  unfold try_except, handle_response, bind, lift, ret, cache_set.
  rewrite Hst, Hjson. simpl. rewrite Hcands, Htruthy. simpl.
  rewrite Hcand, Hcontent, Hmeta, Hattrs, Hiter.
  rewrite (collect_sources_ok attrs [] Hok), app_nil_l.
  by rewrite Hnone, Hempty.
Qed.

(** X5: on the success path the object handed to [cache.set] is the summary
    as built, before it is wrapped: the instruction is never cached.  The
    write is the last effect of the call, after the lookup and the one
    request. *)
Theorem summary_is_cached_unwrapped
    e h ti w model k q resp data candidate content attrs :
  is_ready h ti model k q →
  truthy (entry e w model q) = false →
  env_post e (request_url model k) (payload q) = Ok resp →
  resp_status resp = 200%Z →
  resp_json resp = Ok data →
  response_parts data candidate content attrs →
  Forall attribution_ok attrs →
  truthy content = true ∨ filter (λ a, web_nonempty a) attrs ≠ [] →
  let stored :=
    summary_object content
      (take 3 (citation_of <$> filter (λ a, web_nonempty a) attrs)) in
  w_trace (call e h ti w).2 =
    (w_trace (requested w model k q)
       ++ [CacheSet module_name (cache_params model q) stored])%list ∧
  w_store (call e h ti w).2 =
    gateway_set format_value digest (env_writable e) (w_store w)
      module_name (cache_params model q) stored ∧
  field "instruction" stored = None.
Proof.
  intros Hready Hmiss Hpost Hst Hjson Hparts Hok Hsome.
  rewrite (call_ready _ _ _ _ _ e _ _ w _ _ _ Hready).
  rewrite (guarded_miss_response _ _ _ _ _ _ _ _ Hmiss Hpost).
  unfold try_except.
  by rewrite (handle_summary _ _ _ _ _ data candidate content attrs).
Qed.

(** X7: however many calls are made in a row, with whatever endpoints and
    storage conditions, a store that holds only summaries as the tool caches
    them still holds only such summaries afterwards. *)
Theorem store_keeps_only_summaries h ti envs : ∀ w,
  store_ok (w_store w) →
  store_ok (w_store (run_calls (λ e, call e h ti) envs w).2).
Proof.
  induction envs as [|e envs IH]; intros w Hok; simpl; [done|].
  destruct (call e h ti w) as [r w1] eqn:Hcall.
  pose proof (store_ok_preserved _ _ _ _ _ _ _ _ _ _ _ Hcall Hok) as Hok1.
  specialize (IH w1 Hok1).
  by destruct (run_calls _ envs w1).
Qed.

(** ** Requests *)

(** X8: whatever the cache answers, as long as it is truthy the call goes no
    further than the lookup: no request is sent and nothing is stored, also
    when the entry is not an object and wrapping it fails. *)
Theorem truthy_entry_never_requests e h ti w model k q :
  is_ready h ti model k q →
  truthy (entry e w model q) = true →
  (call e h ti w).2 = looked_up w model q.
Proof.
  intros Hready Hhit.
  rewrite (call_ready _ _ _ _ _ e _ _ w _ _ _ Hready).
  rewrite (guarded_hit _ _ _ _ _ _ _ Hhit).
  by destruct (wrap_response _).
Qed.

Lemma requests_app store store' trace (evs : list event) :
  requests (World store (trace ++ evs))
    = (requests (World store' trace) ++ filter (λ ev, is_post ev) evs)%list.
Proof. unfold requests. simpl. apply filter_app. Qed.

(** X9: a call that misses the cache sends exactly one request, to the url
    made of the model and the key, with the query in its body, whatever
    comes back: there is no retry and no second endpoint. *)
Theorem miss_sends_exactly_one_request e h ti w model k q :
  is_ready h ti model k q →
  truthy (entry e w model q) = false →
  requests (call e h ti w).2 =
    (requests w ++ [HttpPost (request_url model k) (payload q)])%list.
Proof.
  intros Hready Hmiss.
  rewrite (call_ready _ _ _ _ _ e _ _ w _ _ _ Hready).
  assert (requests (requested w model k q) =
          (requests w ++ [HttpPost (request_url model k) (payload q)])%list)
    as Hreq.
  { unfold requested. rewrite (requests_app _ (w_store w)).
    by destruct w. }
  destruct (env_post e (request_url model k) (payload q))
    as [resp|ex] eqn:Hpost.
  - rewrite (guarded_miss_response _ _ _ _ _ _ _ _ Hmiss Hpost).
    unfold try_except, ret.
    destruct (handle_outcome format_value digest e (cache_params model q) resp
                (requested w model k q))
      as [(ex & -> & _)|[[msg ->]|[[msg ->]|(content & sources & ->)]]];
      simpl; try done.
    + by destruct (exn_is_exception ex).
    + rewrite (requests_app _ (w_store w)). simpl.
      rewrite app_nil_r. rewrite <- Hreq. by unfold requested.
  - destruct (exn_is_exception ex) eqn:Hex.
    + by rewrite (guarded_miss_raise _ _ _ _ _ _ _ _ Hmiss Hpost Hex).
    + by rewrite (guarded_miss_interrupted _ _ _ _ _ _ _ _ Hmiss Hpost Hex).
Qed.

(** ** What a fresh answer looks like *)

Ltac unfold_step :=
  match goal with
  | |- context [match ?r with Ok _ => _ | Raise _ => _ end] =>
      destruct r eqn:?
  | |- context [if ?b then _ else _] => destruct b eqn:?
  end.

Lemma handle_sources_bound e cp resp w r w' sources :
  handle e cp resp w = (r, w') →
  (∃ v, r = Ok v ∧ field "sources" v = Some (VList sources)) →
  (length sources ≤ 3)%nat.
Proof.
  unfold handle_response, bind, lift, ret, cache_set.
  repeat unfold_step; intros [= <- <-] (v & [= <-] & Hfield);
    try discriminate;
    simpl in Hfield; injection Hfield as <-; rewrite length_take; lia.
Qed.

(** X10: an answer that comes from the endpoint never lists more than three
    sources, whatever the response holds. *)
Theorem fresh_answer_has_at_most_three_sources
    e h ti w model k q v w' sources :
  is_ready h ti model k q →
  truthy (entry e w model q) = false →
  call e h ti w = (Ok v, w') →
  field "sources" v = Some (VList sources) →
  (length sources ≤ 3)%nat.
Proof.
  intros Hready Hmiss Hcall Hfield.
  rewrite (call_ready _ _ _ _ _ e _ _ w _ _ _ Hready) in Hcall.
  destruct (env_post e (request_url model k) (payload q))
    as [resp|ex] eqn:Hpost.
  - rewrite (guarded_miss_response _ _ _ _ _ _ _ _ Hmiss Hpost) in Hcall.
    unfold try_except, ret in Hcall.
    destruct (handle e (cache_params model q) resp (requested w model k q))
      as [[v1|ex] w1] eqn:Hhandle.
    + injection Hcall as -> ->.
      apply (handle_sources_bound _ _ _ _ _ _ _ Hhandle). eauto.
    + destruct (exn_is_exception ex); [|discriminate].
      injection Hcall as <- _. discriminate.
  - destruct (exn_is_exception ex) eqn:Hex.
    + rewrite (guarded_miss_raise _ _ _ _ _ _ _ _ Hmiss Hpost Hex) in Hcall.
      injection Hcall as <- _. discriminate.
    + by rewrite (guarded_miss_interrupted _ _ _ _ _ _ _ _ Hmiss Hpost Hex)
        in Hcall.
Qed.

(** X11: the store changes only when a summary is returned: a call that
    raises, or that returns an error object or a no-results object, leaves
    every entry as it was, so failures are never cached. *)
Theorem only_summaries_change_store e h ti w r w' :
  call e h ti w = (r, w') →
  w_store w' ≠ w_store w →
  ∃ content sources, r = Ok (wrapped_summary content sources).
Proof.
  intros Hcall Hchanged.
  destruct (config_of h) as [cfg|ex] eqn:Hcfg;
    [|unfold async_call, bind, lift in Hcall; rewrite Hcfg in Hcall;
      injection Hcall as _ <-; by destruct Hchanged].
  destruct (read_query ti) as [q|ex] eqn:Hq;
    [|unfold async_call, bind, lift in Hcall; rewrite Hcfg, Hq in Hcall;
      injection Hcall as _ <-; by destruct Hchanged].
  destruct (call_outcome DOMAIN CONF_GOOGLE_SEARCH_API_KEY
              CONF_GOOGLE_SEARCH_MODEL format_value digest e h ti w cfg q
              Hcfg Hq)
    as [(p & w1 & Hp & Hw)|(ex & model & k & Hp & _)];
    rewrite Hp in Hcall; injection Hcall as <- <-;
    [|by destruct Hchanged].
  destruct p as [msg|msg|d|content sources]; simpl.
  - by destruct Hchanged.
  - by destruct Hchanged.
  - destruct Hw as (model & _ & _ & ->). by destruct Hchanged.
  - eauto.
Qed.

(** ** When the call raises *)

(** X12: the call raises in two situations and no other.  Either reading
    the configuration raises, or the configuration is read and the arguments
    hold no query: it then raises that very exception and has had no effect
    (the key check comes after both reads, so a missing query raises even
    when no key is configured).  Or the cache misses and one of the awaits
    (sending the request, reading the body of an error response, parsing the
    body of a 200) raises something that is not an [Exception], such as a
    cancellation: it then raises that, after the lookup and the request,
    with nothing stored. *)
Theorem call_raises_exactly_when e h ti w ex w' :
  call e h ti w = (Raise ex, w') ↔
  (w' = w ∧
   (config_of h = Raise ex ∨
    (∃ cfg, config_of h = Ok cfg) ∧ read_query ti = Raise ex)) ∨
  (∃ model k q,
     is_ready h ti model k q ∧
     truthy (entry e w model q) = false ∧
     await_raises e (request_url model k) (payload q) ex ∧
     exn_is_exception ex = false ∧
     w' = requested w model k q).
Proof.
  split.
  - intros Hcall.
    destruct (config_of h) as [cfg|ex1] eqn:Hcfg.
    + destruct (read_query ti) as [q|ex1] eqn:Hq.
      * destruct (call_outcome DOMAIN CONF_GOOGLE_SEARCH_API_KEY
                    CONF_GOOGLE_SEARCH_MODEL format_value digest e h ti w
                    cfg q Hcfg Hq)
          as [(p & w1 & Hp & _)
             |(ex1 & model & k & Hp & Hclass & Hready & Hmiss & Hraise)];
          rewrite Hp in Hcall; [discriminate|].
        injection Hcall as -> <-. right. by exists model, k, q.
      * unfold async_call, bind, lift in Hcall. rewrite Hcfg, Hq in Hcall.
        injection Hcall as -> ->. left. eauto.
    + unfold async_call, bind, lift in Hcall. rewrite Hcfg in Hcall.
      injection Hcall as -> ->. left. eauto.
  - intros [[-> [Hcfg | [[cfg Hcfg] Hq]]]
           |(model & k & q & Hready & Hmiss & Hraise & Hclass & ->)].
    + unfold async_call, bind, lift. by rewrite Hcfg.
    + unfold async_call, bind, lift. by rewrite Hcfg, Hq.
    + rewrite (call_ready _ _ _ _ _ e _ _ w _ _ _ Hready).
      destruct Hraise as [Hpost|(resp & Hpost & [[Hst Htext]|[Hst Hjson]])].
      * by apply guarded_miss_interrupted.
      * rewrite (guarded_miss_response _ _ _ _ _ _ _ _ Hmiss Hpost).
        unfold try_except.
        rewrite (handle_other_status_unreadable _ _ _ _ _ ex) by done.
        by rewrite Hclass.
      * rewrite (guarded_miss_response _ _ _ _ _ _ _ _ Hmiss Hpost).
        unfold try_except, handle_response, bind, lift, ret.
        rewrite Hst, Hjson. simpl. by rewrite Hclass.
Qed.

(** ** Reading the configuration *)

(** X13: the settings the call works with are those of the domain's data
    overridden, name by name, by the options of the first config entry; the
    other entries are not looked at. *)
Theorem options_override_domain_config h cfg :
  read_config DOMAIN h = Ok cfg →
  ∃ first others domain_data,
    hass_entries h DOMAIN = first :: others ∧
    hass_data h !! DOMAIN = Some domain_data ∧
    ∀ name,
      cfg !! name =
        match entry_options first !! name with
        | Some v => Some v
        | None => default ∅ (domain_data !! "config") !! name
        end.
Proof.
  unfold read_config.
  destruct (hass_data h !! DOMAIN) as [domain_data|]; [|discriminate].
  destruct (hass_entries h DOMAIN) as [|first others]; [discriminate|].
  intros [= <-]. exists first, others, domain_data.
  split; [done|]. split; [done|]. intros name.
  rewrite lookup_union.
  destruct (entry_options first !! name) as [v|] eqn:Hopt; simpl.
  - by destruct (default ∅ (domain_data !! "config") !! name).
  - by destruct (default ∅ (domain_data !! "config") !! name).
Qed.

(** ** Wrapping *)

Lemma dict_lookup_set_ne k k' x d :
  k ≠ k' → dict_lookup k' (dict_set k x d) = dict_lookup k' d.
Proof.
  intros Hne. induction d as [|[k0 v] d IH]; simpl.
  - by destruct (String.eqb_spec k' k) as [->|].
  - destruct (String.eqb_spec k k0) as [->|Hk]; simpl.
    + by destruct (String.eqb_spec k' k0) as [->|].
    + destruct (String.eqb_spec k' k0); [done|apply IH].
Qed.

Lemma dict_set_twice k x d : dict_set k x (dict_set k x d) = dict_set k x d.
Proof.
  induction d as [|[k0 v] d IH]; simpl.
  - by rewrite String.eqb_refl.
  - destruct (String.eqb_spec k k0) as [->|Hk]; simpl.
    + by rewrite String.eqb_refl.
    + destruct (String.eqb_spec k k0); [done|]. by rewrite IH.
Qed.

(** X14: wrapping an object sets its instruction item to the fixed text and
    changes nothing else: every other item reads as before, also when the
    object already had an instruction, which is then replaced, not
    doubled. *)
Theorem wrap_response_sets_only_instruction d :
  ∃ d', wrap_response (VDict d) = Ok (VDict d') ∧
        dict_lookup "instruction" d' = Some (VStr response_instruction) ∧
        ∀ name, name ≠ "instruction" → dict_lookup name d' = dict_lookup name d.
Proof.
  eexists. split; [reflexivity|]. split.
  - apply dict_lookup_set.
  - intros name Hname. by apply dict_lookup_set_ne.
Qed.

(** X15: wrapping is idempotent: an object that has been wrapped is
    unchanged by wrapping it again. *)
Theorem wrap_response_idempotent r v :
  wrap_response r = Ok v → wrap_response v = Ok v.
Proof.
  destruct r; try discriminate. intros [= <-].
  unfold wrap_response. simpl. by rewrite dict_set_twice.
Qed.

(** ** Attributions that are not objects *)

Lemma collect_sources_prefix pre rest : ∀ sources,
  Forall attribution_ok pre →
  collect_sources (pre ++ rest) sources =
    collect_sources rest
      (sources ++ (citation_of <$> filter (λ a, web_nonempty a) pre))%list.
Proof.
  induction pre as [|attr pre IH]; intros sources Hok; simpl.
  - by rewrite app_nil_r.
  - apply Forall_cons in Hok as [(d & -> & Hweb) Hok].
    destruct Hweb as [Hweb | [[|item web] Hweb]]; simpl; rewrite Hweb; simpl.
    + rewrite filter_cons_False; [by apply IH|].
      unfold web_nonempty. simpl. rewrite Hweb. exact id.
    + rewrite filter_cons_False; [by apply IH|].
      unfold web_nonempty. simpl. rewrite Hweb. exact id.
    + rewrite filter_cons_True by (unfold web_nonempty; simpl; by rewrite Hweb).
      rewrite IH by done. simpl.
      unfold citation_of at 2. simpl. rewrite Hweb. simpl.
      by rewrite <- app_assoc.
Qed.

(** X16: one attribution that is not an object (a string, a number, null)
    costs the whole answer: the loop raises on it, whatever the text and the
    attributions before and after it, and the call returns the error object
    of that exception; nothing is cached. *)
Theorem non_object_attribution_discards_answer
    e h ti w model k q resp data candidate content pre bad post :
  is_ready h ti model k q →
  truthy (entry e w model q) = false →
  env_post e (request_url model k) (payload q) = Ok resp →
  resp_status resp = 200%Z →
  resp_json resp = Ok data →
  response_parts data candidate content (pre ++ bad :: post) →
  Forall attribution_ok pre →
  (∀ d, bad ≠ VDict d) →
  call e h ti w =
    (Ok (generic_error (attribute_error bad "get")), requested w model k q).
Proof.
  intros Hready Hmiss Hpost Hst Hjson
    (candidates & metadata & attributions & Hcands & Htruthy
     & Hcand & Hcontent & Hmeta & Hattrs & Hiter) Hok Hbad.
  rewrite (call_ready _ _ _ _ _ e _ _ w _ _ _ Hready).
  rewrite (guarded_miss_response _ _ _ _ _ _ _ _ Hmiss Hpost).
  unfold try_except, handle_response, bind, lift, ret, cache_set.
  rewrite Hst, Hjson. simpl. rewrite Hcands, Htruthy. simpl.
  rewrite Hcand, Hcontent, Hmeta, Hattrs, Hiter.
  rewrite (collect_sources_prefix pre (bad :: post) [] Hok).
  destruct bad; try reflexivity. by destruct (Hbad d).
Qed.
End Coverage.

(** ** The further properties on the concrete installation *)

Abbreviation demo X :=
  (X Demo.domain Demo.conf_api_key Demo.conf_model Demo.format_value
     (id : string → string)).

Lemma request_failure_is_reported_witness :
  Demo.call (Demo.answering (Raise (Exn "ClientError" "unreachable")))
    (Demo.installation "secret") Demo.input Demo.fresh =
  (Ok (error_object "An error occurred during search: unreachable"),
   requested Demo.fresh default_model "secret" (VStr "weather")).
Proof.
  apply (demo request_failure_is_reported _ (Demo.installation "secret")
           Demo.input Demo.fresh default_model "secret" (VStr "weather")
           (Exn "ClientError" "unreachable")).
  - demo_ready.
  - vm_compute. reflexivity.
  - reflexivity.
  - reflexivity.
Defined.

Lemma malformed_json_is_reported_witness :
  Demo.call
    (Demo.answering
       (Ok (Response 200 (Ok "<html>")
              (Raise (Exn "JSONDecodeError" "Expecting value")))))
    (Demo.installation "secret") Demo.input Demo.fresh =
  (Ok (error_object "An error occurred during search: Expecting value"),
   requested Demo.fresh default_model "secret" (VStr "weather")).
Proof.
  apply (demo malformed_json_is_reported _ (Demo.installation "secret")
           Demo.input Demo.fresh default_model "secret" (VStr "weather")
           (Response 200 (Ok "<html>")
              (Raise (Exn "JSONDecodeError" "Expecting value")))
           (Exn "JSONDecodeError" "Expecting value")).
  - demo_ready.
  - vm_compute. reflexivity.
  - reflexivity.
  - reflexivity.
  - reflexivity.
  - reflexivity.
Defined.

Lemma unreadable_error_body_is_reported_witness :
  Demo.call
    (Demo.answering
       (Ok (Response 502 (Raise (Exn "ClientPayloadError" "incomplete"))
              (Ok VNone))))
    (Demo.installation "secret") Demo.input Demo.fresh =
  (Ok (error_object "An error occurred during search: incomplete"),
   requested Demo.fresh default_model "secret" (VStr "weather")).
Proof.
  apply (demo unreadable_error_body_is_reported _ (Demo.installation "secret")
           Demo.input Demo.fresh default_model "secret" (VStr "weather")
           (Response 502 (Raise (Exn "ClientPayloadError" "incomplete"))
              (Ok VNone))
           (Exn "ClientPayloadError" "incomplete")).
  - demo_ready.
  - vm_compute. reflexivity.
  - reflexivity.
  - simpl. lia.
  - reflexivity.
  - reflexivity.
Defined.

Lemma empty_result_is_not_cached_witness :
  Demo.call
    (Demo.answering (Demo.json_response 200 (Demo.body (Demo.text_parts "") [])))
    (Demo.installation "secret") Demo.input Demo.fresh =
  (Ok (results_object "No information found."),
   requested Demo.fresh default_model "secret" (VStr "weather")).
Proof.
  apply (demo empty_result_is_not_cached _ (Demo.installation "secret")
           Demo.input Demo.fresh default_model "secret" (VStr "weather")
           (Response 200 (Ok "body") (Ok (Demo.body (Demo.text_parts "") [])))
           (Demo.body (Demo.text_parts "") [])
           (VDict [("content", VDict [("parts", Demo.text_parts "")]);
                   ("groundingMetadata",
                    VDict [("groundingAttributions", VList [])])])
           (VStr "") []).
  - demo_ready.
  - vm_compute. reflexivity.
  - reflexivity.
  - reflexivity.
  - reflexivity.
  - eexists _, _, _. repeat split; reflexivity.
  - constructor.
  - reflexivity.
  - reflexivity.
Defined.

Lemma summary_is_cached_unwrapped_witness :
  let out :=
    Demo.call
      (Demo.answering
         (Demo.json_response 200
            (Demo.body (Demo.text_parts "sunny") [Demo.web "a" "1"])))
      (Demo.installation "secret") Demo.input Demo.fresh in
  let stored :=
    summary_object (VStr "sunny")
      [VDict [("title", VStr "a"); ("url", VStr "1")]] in
  w_trace out.2 =
    (w_trace (requested Demo.fresh default_model "secret" (VStr "weather"))
       ++ [CacheSet module_name Demo.params stored])%list ∧
  w_store out.2 =
    gateway_set Demo.format_value id true ∅ module_name Demo.params stored ∧
  field "instruction" stored = None.
Proof.
  intros out stored.
  refine (demo summary_is_cached_unwrapped
           (Demo.answering
              (Demo.json_response 200
                 (Demo.body (Demo.text_parts "sunny") [Demo.web "a" "1"])))
           (Demo.installation "secret")
           Demo.input Demo.fresh default_model "secret" (VStr "weather")
           (Response 200 (Ok "body")
              (Ok (Demo.body (Demo.text_parts "sunny") [Demo.web "a" "1"])))
           (Demo.body (Demo.text_parts "sunny") [Demo.web "a" "1"])
           (VDict [("content", VDict [("parts", Demo.text_parts "sunny")]);
                   ("groundingMetadata",
                    VDict [("groundingAttributions",
                            VList [Demo.web "a" "1"])])])
           (VStr "sunny") [Demo.web "a" "1"] _ _ _ _ _ _ _ _).
  - demo_ready.
  - vm_compute. reflexivity.
  - reflexivity.
  - reflexivity.
  - reflexivity.
  - eexists _, _, _. repeat split; reflexivity.
  - repeat constructor. eexists. split; [reflexivity|]. right. eexists.
    reflexivity.
  - left. reflexivity.
Defined.

(** The first call reaches the endpoint, the second finds it out of reach. *)
Lemma repeated_call_served_from_cache_witness :
  let first :=
    Demo.call
      (Demo.answering
         (Demo.json_response 200
            (Demo.body (Demo.text_parts "sunny") [Demo.web "a" "1"])))
      (Demo.installation "secret") Demo.input Demo.fresh in
  Demo.call (Demo.answering (Raise (Exn "ClientError" "unreachable")))
    (Demo.installation "secret") Demo.input first.2 =
  (Ok (wrapped_summary (VStr "sunny")
         [VDict [("title", VStr "a"); ("url", VStr "1")]]),
   looked_up first.2 default_model (VStr "weather")).
Proof.
  intros first.
  apply (demo repeated_call_served_from_cache
           (Demo.answering
              (Demo.json_response 200
                 (Demo.body (Demo.text_parts "sunny") [Demo.web "a" "1"])))
           (Demo.answering (Raise (Exn "ClientError" "unreachable")))
           (Demo.installation "secret") Demo.input Demo.fresh first.2
           default_model "secret" (VStr "weather")).
  - demo_ready.
  - reflexivity.
  - reflexivity.
  - vm_compute. reflexivity.
Defined.

Lemma store_keeps_only_summaries_witness :
  let good :=
    Demo.answering
      (Demo.json_response 200
         (Demo.body (Demo.text_parts "sunny") [Demo.web "a" "1"])) in
  let down := Demo.answering (Raise (Exn "ClientError" "unreachable")) in
  store_ok
    (w_store
       (run_calls (λ e, Demo.call e (Demo.installation "secret") Demo.input)
          [down; good; down] Demo.fresh).2).
Proof.
  apply (demo store_keeps_only_summaries (Demo.installation "secret")
           Demo.input).
  intros k v. simpl. rewrite lookup_empty. discriminate.
Defined.

Lemma truthy_entry_never_requests_witness :
  (Demo.call (Demo.answering (Raise (Exn "ClientError" "unreachable")))
     (Demo.installation "secret") Demo.input Demo.warm).2
  = looked_up Demo.warm default_model (VStr "weather").
Proof.
  apply (demo truthy_entry_never_requests _ (Demo.installation "secret")
           Demo.input Demo.warm default_model "secret" (VStr "weather")).
  - demo_ready.
  - vm_compute. reflexivity.
Defined.

Lemma miss_sends_exactly_one_request_witness :
  requests
    (Demo.call (Demo.answering (Demo.json_response 503 VNone))
       (Demo.installation "secret") Demo.input Demo.fresh).2
  = (requests Demo.fresh
       ++ [HttpPost (request_url default_model "secret")
             (payload (VStr "weather"))])%list.
Proof.
  apply (demo miss_sends_exactly_one_request _ (Demo.installation "secret")
           Demo.input Demo.fresh default_model "secret" (VStr "weather")).
  - demo_ready.
  - vm_compute. reflexivity.
Defined.

(** Five attributions come back from the endpoint, three sources are
    returned. *)
Lemma fresh_answer_has_at_most_three_sources_witness :
  (length [VDict [("title", VStr "a"); ("url", VStr "1")];
           VDict [("title", VStr "b"); ("url", VStr "2")];
           VDict [("title", VStr "c"); ("url", VStr "3")]] ≤ 3)%nat.
Proof.
  pose (good :=
    Demo.answering
      (Demo.json_response 200
         (Demo.body (Demo.text_parts "sunny")
            [Demo.web "a" "1"; Demo.web "b" "2"; Demo.web "c" "3";
             Demo.web "d" "4"; Demo.web "e" "5"]))).
  apply (demo fresh_answer_has_at_most_three_sources good
           (Demo.installation "secret") Demo.input Demo.fresh
           default_model "secret" (VStr "weather")
           (wrapped_summary (VStr "sunny")
              [VDict [("title", VStr "a"); ("url", VStr "1")];
               VDict [("title", VStr "b"); ("url", VStr "2")];
               VDict [("title", VStr "c"); ("url", VStr "3")]])
           (Demo.call good (Demo.installation "secret") Demo.input
              Demo.fresh).2).
  - demo_ready.
  - vm_compute. reflexivity.
  - vm_compute. reflexivity.
  - reflexivity.
Defined.

Lemma only_summaries_change_store_witness :
  ∃ content sources,
    (Demo.call
       (Demo.answering
          (Demo.json_response 200
             (Demo.body (Demo.text_parts "sunny") [Demo.web "a" "1"])))
       (Demo.installation "secret") Demo.input Demo.fresh).1
    = Ok (wrapped_summary content sources).
Proof.
  pose (good :=
    Demo.answering
      (Demo.json_response 200
         (Demo.body (Demo.text_parts "sunny") [Demo.web "a" "1"]))).
  apply (demo only_summaries_change_store good (Demo.installation "secret")
           Demo.input Demo.fresh
           (Demo.call good (Demo.installation "secret") Demo.input
              Demo.fresh).1
           (Demo.call good (Demo.installation "secret") Demo.input
              Demo.fresh).2).
  - vm_compute. reflexivity.
  - intros Hsame.
    apply (f_equal (λ m : gmap string value,
                      m !! deriveKey Demo.format_value id module_name
                             Demo.params)) in Hsame.
    vm_compute in Hsame. discriminate.
Defined.

(** The task is cancelled while the body of a 200 is awaited. *)
Lemma call_raises_exactly_when_witness :
  Demo.call
    (Demo.answering (Ok (Response 200 (Ok "") (Raise CancelledError))))
    (Demo.installation "secret") Demo.input Demo.fresh
  = (Raise CancelledError,
     requested Demo.fresh default_model "secret" (VStr "weather")).
Proof.
  apply (proj2 (demo call_raises_exactly_when
                  (Demo.answering
                     (Ok (Response 200 (Ok "") (Raise CancelledError))))
                  (Demo.installation "secret") Demo.input Demo.fresh
                  CancelledError
                  (requested Demo.fresh default_model "secret"
                     (VStr "weather")))).
  right. exists default_model, "secret", (VStr "weather").
  split; [demo_ready|].
  split; [vm_compute; reflexivity|].
  split; [|split; reflexivity].
  right. eexists. split; [reflexivity|]. right. split; reflexivity.
Defined.

(** The options name a key of their own; the domain's settings name another
    key and a model. *)
Lemma options_override_domain_config_witness :
  let host :=
    Hass {[ Demo.domain :=
              {[ "config" := {[ Demo.conf_api_key := "old";
                                Demo.conf_model := "m" ]} ]} ]}
         (λ _, [ConfigEntry {[ Demo.conf_api_key := "new" ]};
                ConfigEntry {[ Demo.conf_model := "other" ]}]) in
  ∃ first others domain_data,
    hass_entries host Demo.domain = first :: others ∧
    hass_data host !! Demo.domain = Some domain_data ∧
    ∀ name,
      ({[ Demo.conf_api_key := "new"; Demo.conf_model := "m" ]}
         : gmap string string) !! name =
        match entry_options first !! name with
        | Some v => Some v
        | None => default ∅ (domain_data !! "config") !! name
        end.
Proof.
  intros host.
  apply (options_override_domain_config Demo.domain host).
  vm_compute. reflexivity.
Defined.

Lemma wrap_response_sets_only_instruction_witness :
  ∃ d', wrap_response Demo.cached = Ok (VDict d') ∧
        dict_lookup "instruction" d' = Some (VStr response_instruction) ∧
        dict_lookup "answer_summary" d' = Some (VStr "sunny").
Proof.
  destruct (wrap_response_sets_only_instruction
              [("answer_summary", VStr "sunny");
               ("sources",
                VList [VDict [("title", VStr "t"); ("url", VStr "u")]])])
    as (d' & Hwrap & Hinstr & Hrest).
  exists d'. split; [exact Hwrap|]. split; [exact Hinstr|].
  rewrite (Hrest "answer_summary"); [reflexivity|discriminate].
Defined.

Lemma wrap_response_idempotent_witness :
  wrap_response (wrapped_summary (VStr "sunny") [])
  = Ok (wrapped_summary (VStr "sunny") []).
Proof.
  apply (wrap_response_idempotent (summary_object (VStr "sunny") [])).
  reflexivity.
Defined.

(** The second of three attributions is a string. *)
Lemma non_object_attribution_discards_answer_witness :
  let attrs := [Demo.web "a" "1"; VStr "oops"; Demo.web "b" "2"] in
  Demo.call
    (Demo.answering
       (Demo.json_response 200 (Demo.body (Demo.text_parts "sunny") attrs)))
    (Demo.installation "secret") Demo.input Demo.fresh =
  (Ok (error_object
         "An error occurred during search: 'str' object has no attribute 'get'"),
   requested Demo.fresh default_model "secret" (VStr "weather")).
Proof.
  intros attrs.
  refine (demo non_object_attribution_discards_answer
            (Demo.answering
               (Demo.json_response 200
                  (Demo.body (Demo.text_parts "sunny") attrs)))
            (Demo.installation "secret") Demo.input Demo.fresh
            default_model "secret" (VStr "weather")
            (Response 200 (Ok "body")
               (Ok (Demo.body (Demo.text_parts "sunny") attrs)))
            (Demo.body (Demo.text_parts "sunny") attrs)
            (VDict [("content", VDict [("parts", Demo.text_parts "sunny")]);
                    ("groundingMetadata",
                     VDict [("groundingAttributions", VList attrs)])])
            (VStr "sunny") [Demo.web "a" "1"] (VStr "oops")
            [Demo.web "b" "2"] _ _ _ _ _ _ _ _).
  - demo_ready.
  - vm_compute. reflexivity.
  - reflexivity.
  - reflexivity.
  - reflexivity.
  - eexists _, _, _. repeat split; reflexivity.
  - repeat constructor. eexists. split; [reflexivity|]. right. eexists.
    reflexivity.
  - discriminate.
Defined.
